(** * SDK index and search: a shallow embedding of [src/indexer.py] and
      [src/search.py]

    Python values are modelled as follows.
    - [str] is [string]; every character stands for one code point below 256.
    - [dict] with string keys is [gmap string _]; loops over a dict are
      [map_fold]s, loops over a list are recursive functions.
    - [int] is [Z] where the code may receive a negative number, [nat] for
      line numbers and sizes.
    - An exception that leaves a function is an explicit outcome. *)

From Stdlib Require Import Ascii String DecimalString ZArith Lia Sorted.
From stdpp Require Import gmap strings list fin_maps.

Local Open Scope Z_scope.
Local Open Scope nat_scope.

(** ** Python string operations used by the code *)

Module PyStr.

Abbreviation chars := list_ascii_of_string.
Abbreviation str := string_of_list_ascii.

Definition LF : ascii := "010"%char.

(** [str.isspace] on one code point below 256. *)
Definition isspace (c : ascii) : bool :=
  let n := nat_of_ascii c in
  ((9 <=? n) && (n <=? 13)) || ((28 <=? n) && (n <=? 32))
  || (n =? 133) || (n =? 160).

(** [str.lower] on one code point below 256. *)
Definition lower_char (c : ascii) : ascii :=
  let n := nat_of_ascii c in
  if ((65 <=? n) && (n <=? 90))
     || ((192 <=? n) && (n <=? 222) && negb (n =? 215))
  then ascii_of_nat (n + 32) else c.

Definition lower (s : string) : string := str (map lower_char (chars s)).

Fixpoint lstrip_chars (l : list ascii) : list ascii :=
  match l with
  | c :: l' => if isspace c then lstrip_chars l' else l
  | [] => []
  end.

Definition lstrip (s : string) : string := str (lstrip_chars (chars s)).
Definition rstrip (s : string) : string :=
  str (rev (lstrip_chars (rev (chars s)))).
Definition strip (s : string) : string := lstrip (rstrip s).

Definition len (s : string) : nat := String.length s.

Fixpoint prefixb (p l : list ascii) : bool :=
  match p, l with
  | [], _ => true
  | a :: p', b :: l' => bool_decide (a = b) && prefixb p' l'
  | _ :: _, [] => false
  end.

Definition startswith (s p : string) : bool := prefixb (chars p) (chars s).
Definition endswith (s p : string) : bool :=
  prefixb (rev (chars p)) (rev (chars s)).

(** [needle in hay]. *)
Fixpoint infixb (p l : list ascii) : bool :=
  prefixb p l || match l with [] => false | _ :: l' => infixb p l' end.

Definition contains (needle hay : string) : bool :=
  infixb (chars needle) (chars hay).

(** [s.replace(old, new)] for one-character [old] and [new]. *)
Definition replace (old new : ascii) (s : string) : string :=
  str (map (fun c => if bool_decide (c = old) then new else c) (chars s)).

(** [s[:-n]]. *)
Definition drop_end (n : nat) (s : string) : string :=
  str (take (length (chars s) - n) (chars s)).

(** [s.count(c)] for a one-character [c]. *)
Definition count (c : ascii) (s : string) : nat :=
  length (filter (fun x => x = c) (chars s)).

(** [s.split(sep)] for a one-character [sep]: never the empty list. *)
Fixpoint split_chars (sep : ascii) (cur : list ascii) (l : list ascii)
  : list string :=
  match l with
  | [] => [str (rev cur)]
  | c :: l' =>
      if bool_decide (c = sep) then str (rev cur) :: split_chars sep [] l'
      else split_chars sep (c :: cur) l'
  end.

Definition split (sep : ascii) (s : string) : list string :=
  split_chars sep [] (chars s).

(** [sep.join(parts)]. *)
Fixpoint join (sep : string) (parts : list string) : string :=
  match parts with
  | [] => ""
  | [p] => p
  | p :: rest => p +:+ sep +:+ join sep rest
  end.

(** The lines a text file yields when iterated: each one keeps its
    terminating line feed, the last one may lack it. *)
Fixpoint iter_lines_chars (cur : list ascii) (l : list ascii)
  : list string :=
  match l with
  | [] => match cur with [] => [] | _ => [str (rev cur)] end
  | c :: l' =>
      if bool_decide (c = LF) then str (rev (c :: cur)) :: iter_lines_chars [] l'
      else iter_lines_chars (c :: cur) l'
  end.

Definition iter_lines (text : string) : list string :=
  iter_lines_chars [] (chars text).

(** [str(n)] for a natural number. *)
Definition of_nat (n : nat) : string :=
  DecimalString.NilZero.string_of_uint (Nat.to_uint n).

End PyStr.

(** ** Libraries the code calls

    [fnmatch.fnmatch] and the [re] module are not part of the repository.
    The embedding takes them as an interface; the instances further down
    implement the fragment of each that the examples run. *)

Class FnMatch := fnmatch : string -> string -> bool.

Class ReEngine := {
  Pattern : Type;
  (** [re.compile(query, flags)]: [None] stands for [re.error]; the flag is
      [re.IGNORECASE]. *)
  re_compile : string -> bool -> option Pattern;
  (** [bool(pattern.search(line))]. *)
  re_search : Pattern -> string -> bool
}.

(** ** Syntax trees ([ast]) *)

(** The statement structure of a parsed file. Expression children other
    than the bases of a class hold no definition and no import, and are
    left out. *)
Inductive node :=
| Module_ (body : list node)
| FunctionDef (name : string) (lineno : nat) (body : list node)
| AsyncFunctionDef (name : string) (lineno : nat) (body : list node)
| ClassDef (name : string) (lineno : nat) (bases : list node) (body : list node)
| Import_ (names : list string)
| ImportFrom (module : option string) (names : list string)
| Name (id : string)
| Attribute (value : node) (attr : string)
| Other (children : list node).

(** [ast.iter_child_nodes]. *)
Definition iter_child_nodes (n : node) : list node :=
  match n with
  | Module_ body | FunctionDef _ _ body | AsyncFunctionDef _ _ body => body
  | ClassDef _ _ bases body => bases ++ body
  | Attribute value _ => [value]
  | Other children => children
  | Import_ _ | ImportFrom _ _ | Name _ => []
  end.

Fixpoint node_size (n : node) : nat :=
  S match n with
    | Module_ body | FunctionDef _ _ body | AsyncFunctionDef _ _ body =>
        list_sum (List.map node_size body)
    | ClassDef _ _ bases body =>
        list_sum (List.map node_size bases) + list_sum (List.map node_size body)
    | Attribute value _ => node_size value
    | Other children => list_sum (List.map node_size children)
    | Import_ _ | ImportFrom _ _ | Name _ => 0
    end.

(** [ast.walk]: a queue, the node at its head is yielded and its children
    join the tail. One unit of fuel is spent per node yielded. *)
Fixpoint walk_queue (fuel : nat) (todo : list node) : list node :=
  match fuel, todo with
  | S fuel', n :: rest => n :: walk_queue fuel' (rest ++ iter_child_nodes n)
  | _, _ => []
  end.

Definition walk (tree : node) : list node := walk_queue (node_size tree) [tree].

(** [getattr(node, '_parent', None)]: [ast.parse] gives its nodes no
    [_parent] attribute and nothing in the repository assigns one, so the
    lookup yields its default. *)
Definition getattr_parent (n : node) : option node := None.

Definition is_Module (n : node) : bool :=
  match n with Module_ _ => true | _ => false end.

(** ** [indexer.py] *)

Record MethodInfo := { m_name : string; m_line : nat }.

Record ClassInfo := {
  c_name : string; c_line : nat;
  c_methods : list MethodInfo; c_bases : list string }.

Record FunctionInfo := { f_name : string; f_line : nat; f_async : bool }.

Record FileInfo := {
  relative_path : string;
  original_path : string;
  fi_classes : list ClassInfo;
  fi_functions : list FunctionInfo;
  fi_imports : list string;
  fi_size : nat;
  fi_lines : nat;
  saved_as : option string }.

(** The values of [index["classes"]] and [index["functions"]]. *)
Record ClassLocation := {
  cl_file : string; cl_line : nat; cl_methods : list MethodInfo }.

Record FunctionLocation := { fl_file : string; fl_line : nat }.

Record SdkIndex := {
  sdk_id : string;
  ix_name : string;
  ix_description : string;
  ix_files : list FileInfo;
  ix_classes : gmap string ClassLocation;
  ix_functions : gmap string FunctionLocation;
  ix_imports : gmap string (list string);
  ix_file_map : gmap string string;
  ix_concepts : gmap string (list string) }.

(** The configuration keys [index_sdk] reads; [None] is an absent key. *)
Record Config := {
  cfg_name : option string;
  cfg_description : option string;
  cfg_concepts : option (gmap string (list string));
  cfg_file_patterns : option (list string);
  cfg_exclude_patterns : option (list string) }.

Inductive parse_outcome :=
| Parsed (tree : node)
| ParseSyntaxError
| ParseOtherError.

(** One file below the source root: its path relative to the root and in
    full, what [read_text] returns ([None] when it raises) and what
    [ast.parse] makes of the text. *)
Record SourceFile := {
  path_rel : string;
  path_abs : string;
  read_text : option string;
  ast_parse : parse_outcome }.

(** What walking the source root for a relative pattern brings: the files
    that match, or [None] when the walk raises. *)
Definition SourceTree := string -> option (list SourceFile).

(** [source_path.glob(pattern)], [None] when the call raises: [pathlib]
    rejects an empty pattern with [ValueError] and a pattern that starts
    at the root with [NotImplementedError]; for any other pattern the tree
    says what the walk brings. *)
Definition glob (source_path : SourceTree) (pattern : string)
  : option (list SourceFile) :=
  if bool_decide (pattern = "") || PyStr.startswith pattern "/" then None
  else source_path pattern.

(** The in-memory store [self.indices]. *)
Abbreviation Store := (gmap string SdkIndex).

Fixpoint _get_name (n : node) : string :=
  match n with
  | Name id => id
  | Attribute value attr => _get_name value +:+ "." +:+ attr
  | _ => "Unknown"
  end.

Definition class_methods (body : list node) : list MethodInfo :=
  flat_map (fun item =>
    match item with
    | FunctionDef name lineno _ => [{| m_name := name; m_line := lineno |}]
    | _ => []
    end) body.

Definition _extract_classes (tree : node) : list ClassInfo :=
  flat_map (fun n =>
    match n with
    | ClassDef name lineno bases body =>
        [{| c_name := name; c_line := lineno;
            c_methods := class_methods body;
            c_bases := List.map _get_name bases |}]
    | _ => []
    end) (walk tree).

Definition _extract_functions (tree : node) : list FunctionInfo :=
  flat_map (fun n =>
    match n with
    | FunctionDef name lineno _ =>
        let parent := getattr_parent n in
        if match parent with None => true | Some p => is_Module p end
        then [{| f_name := name; f_line := lineno;
                 f_async := match n with AsyncFunctionDef _ _ _ => true | _ => false end |}]
        else []
    | _ => []
    end) (walk tree).

Definition _extract_imports (tree : node) : list string :=
  flat_map (fun n =>
    match n with
    | Import_ names => names
    | ImportFrom module names =>
        List.map (fun a => default "" module +:+ "." +:+ a) names
    | _ => []
    end) (walk tree).

Definition _generate_saved_name (relative_path sdk_id : string) : string :=
  let name := PyStr.replace "\" "_" (PyStr.replace "/" "_" relative_path) in
  let name := if PyStr.endswith name ".py" then PyStr.drop_end 3 name else name in
  sdk_id +:+ "_" +:+ name +:+ ".md".

Definition _should_exclude `{FnMatch} (f : SourceFile) (exclude_patterns : list string)
  : bool :=
  existsb (fun pattern => fnmatch (path_rel f) pattern || fnmatch (path_abs f) pattern)
    exclude_patterns.

(** [None]: an exception leaves [_analyze_file]. *)
Definition _analyze_file (f : SourceFile) : option FileInfo :=
  match read_text f with
  | None => None
  | Some content =>
      let info classes functions imports :=
        {| relative_path := path_rel f; original_path := path_abs f;
           fi_classes := classes; fi_functions := functions; fi_imports := imports;
           fi_size := PyStr.len content;
           fi_lines := PyStr.count PyStr.LF content + 1;
           saved_as := None |} in
      match ast_parse f with
      | Parsed tree =>
          Some (info (_extract_classes tree) (_extract_functions tree)
                     (_extract_imports tree))
      | ParseSyntaxError => Some (info [] [] [])
      | ParseOtherError => None
      end
  end.

(** The order of [pathlib] paths: component by component. *)
Fixpoint parts_compare (p q : list string) : comparison :=
  match p, q with
  | [], [] => Eq
  | [], _ :: _ => Lt
  | _ :: _, [] => Gt
  | a :: p', b :: q' =>
      match String.compare a b with Eq => parts_compare p' q' | c => c end
  end.

Definition path_compare (f g : SourceFile) : comparison :=
  parts_compare (PyStr.split "/" (path_abs f)) (PyStr.split "/" (path_abs g)).

Fixpoint insert_path (f : SourceFile) (l : list SourceFile) : list SourceFile :=
  match l with
  | [] => [f]
  | g :: l' =>
      match path_compare f g with
      | Lt => f :: l
      | Eq => l
      | Gt => g :: insert_path f l'
      end
  end.

(** [sorted(set(all_files))]. *)
Definition sorted_set (all_files : list SourceFile) : list SourceFile :=
  foldr insert_path [] all_files.

(** The body of the loop over the selected files. *)
Definition index_file (sdk : string) (index : SdkIndex) (f : SourceFile) : SdkIndex :=
  match _analyze_file f with
  | None => index
  | Some file_info =>
      let saved_name := _generate_saved_name (relative_path file_info) sdk in
      let file_info :=
        {| relative_path := relative_path file_info;
           original_path := original_path file_info;
           fi_classes := fi_classes file_info;
           fi_functions := fi_functions file_info;
           fi_imports := fi_imports file_info;
           fi_size := fi_size file_info; fi_lines := fi_lines file_info;
           saved_as := Some saved_name |} in
      {| sdk_id := sdk_id index; ix_name := ix_name index;
         ix_description := ix_description index;
         ix_files := ix_files index ++ [file_info];
         ix_classes :=
           foldl (fun classes cls =>
                    <[c_name cls := {| cl_file := saved_name; cl_line := c_line cls;
                                       cl_methods := c_methods cls |}]> classes)
                 (ix_classes index) (fi_classes file_info);
         ix_functions :=
           foldl (fun functions func =>
                    <[f_name func := {| fl_file := saved_name; fl_line := f_line func |}]>
                      functions)
                 (ix_functions index) (fi_functions file_info);
         ix_imports := ix_imports index;
         ix_file_map := <[saved_name := relative_path file_info]> (ix_file_map index);
         ix_concepts := ix_concepts index |}
  end.

(** The dictionary [index_sdk] starts from. *)
Definition initial_index (sdk : string) (config : Config) : SdkIndex :=
  {| sdk_id := sdk;
     ix_name := default sdk (cfg_name config);
     ix_description := default "" (cfg_description config);
     ix_files := []; ix_classes := ∅; ix_functions := ∅; ix_imports := ∅;
     ix_file_map := ∅;
     ix_concepts := default ∅ (cfg_concepts config) |}.

(** The loop over the file patterns, which stands outside every [try]:
    [None] as soon as one [glob] raises. *)
Fixpoint glob_all (source_path : SourceTree) (file_patterns : list string)
  : option (list SourceFile) :=
  match file_patterns with
  | [] => Some []
  | pattern :: rest =>
      match glob source_path pattern with
      | None => None
      | Some files =>
          match glob_all source_path rest with
          | None => None
          | Some all_files => Some (files ++ all_files)
          end
      end
  end.

(** [index_sdk]: the store afterwards and the value returned, [None] when
    an exception leaves the call; the store is then as it was, the
    assignment to [self.indices] being the last statement before [return]. *)
Definition index_sdk `{FnMatch} (indices : Store) (sdk : string)
    (source_path : SourceTree) (config : Config) : Store * option SdkIndex :=
  let index := initial_index sdk config in
  let file_patterns := default ["**/*.py"] (cfg_file_patterns config) in
  let exclude_patterns := default [] (cfg_exclude_patterns config) in
  match glob_all source_path file_patterns with
  | None => (indices, None)
  | Some all_files =>
      let index :=
        foldl (fun index f =>
                 if _should_exclude f exclude_patterns then index
                 else index_file sdk index f)
              index (sorted_set all_files) in
      (<[sdk := index]> indices, Some index)
  end.

Definition get_index (indices : Store) (sdk : string) : option SdkIndex :=
  indices !! sdk.

(** *** Persistence *)

(** What a file of the index directory holds: a record at which the load
    raises (text [json.load] rejects, or JSON that is no object, on which
    [index.get] raises), or the index [json.dump] wrote. *)
Inductive persisted :=
| Malformed
| Stored (index : SdkIndex).

(** A directory: what it holds, by path relative to it. *)
Abbreviation Directory := (gmap string persisted).

Definition index_file_name (sdk : string) : string := sdk +:+ "_index.json".

Definition save_indices (indices : Store) (output_dir : Directory) : Directory :=
  map_fold (fun sdk index dir => <[index_file_name sdk := Stored index]> dir)
    output_dir indices.

(** [glob("*_index.json")] on one file name. *)
Definition is_index_file (file_name : string) : bool :=
  PyStr.endswith file_name "_index.json" && negb (PyStr.contains "/" file_name).

Inductive outcome := Returned | Raised.

Fixpoint load_files (files : list (string * persisted)) (indices : Store)
  : Store * outcome :=
  match files with
  | [] => (indices, Returned)
  | (_, Malformed) :: _ => (indices, Raised)
  | (_, Stored index) :: rest =>
      if bool_decide (sdk_id index = "") then load_files rest indices
      else load_files rest (<[sdk_id index := index]> indices)
  end.

(** [load_indices]: [None] is a directory that does not exist, otherwise
    the entries come in the order the directory is enumerated. *)
Definition load_indices (indices : Store)
    (input_dir : option (list (string * persisted))) : Store * outcome :=
  match input_dir with
  | None => (indices, Returned)
  | Some entries =>
      load_files (List.filter (fun e => is_index_file (fst e)) entries) indices
  end.

(** [entries] enumerates [dir] in some order. *)
Definition enumerates (entries : list (string * persisted)) (dir : Directory) : Prop :=
  entries ≡ₚ map_to_list dir.

(** ** [search.py] *)

(** The keyword options of [search_code]. *)
Record SearchOptions := {
  case_sensitive : bool;
  max_results_per_file : Z;
  regex : bool }.

Definition default_options : SearchOptions :=
  {| case_sensitive := false; max_results_per_file := 10; regex := false |}.

(** A document below [data/<sdk_id>/]: its decoded text, or the message of
    the exception that opening or reading it raises. *)
Inductive document :=
| Text (content : string)
| Unreadable (message : string).

(** [self.data_dir]: one directory per SDK, one document per saved name. *)
Abbreviation DataDir := (gmap string (gmap string document)).

(** The prepared search pattern: compiled in regex mode, a string otherwise. *)
Inductive pattern `{ReEngine} :=
| Compiled (p : Pattern)
| Literal (s : string).

Section Search.
Context `{ReEngine}.

(** [is_regex] holds exactly for a compiled pattern: [search_code] prepares
    both from the same option. *)
Definition _line_matches (line : string) (pat : pattern) (case_sensitive : bool) : bool :=
  match pat with
  | Compiled p => re_search p line
  | Literal s =>
      let search_line := if case_sensitive then line else PyStr.lower line in
      PyStr.contains s search_line
  end.

Definition match_entry (line_num : nat) (line : string) : string :=
  "Line " +:+ PyStr.of_nat line_num +:+ ": " +:+ PyStr.strip line.

(** The loop of [_search_file] from line [line_num] on, [matches] being
    the list built so far. *)
Fixpoint search_lines (lines : list string) (line_num : nat) (matches : list string)
    (pat : pattern) (case_sensitive : bool) (max_results : Z) : list string :=
  match lines with
  | [] => matches
  | line :: rest =>
      if _line_matches line pat case_sensitive then
        let matches := matches ++ [match_entry line_num line] in
        if (max_results <=? Z.of_nat (length matches))%Z then matches
        else search_lines rest (S line_num) matches pat case_sensitive max_results
      else search_lines rest (S line_num) matches pat case_sensitive max_results
  end.

Definition _search_file (doc : document) (pat : pattern) (case_sensitive : bool)
    (max_results : Z) : list string :=
  match doc with
  | Unreadable e => ["Error reading file: " +:+ e]
  | Text content =>
      search_lines (PyStr.iter_lines content) 1 [] pat case_sensitive max_results
  end.

Definition invalid_regex : gmap string (list string) :=
  {[ "error" := ["Invalid regex pattern"] ]}.

(** The body of the loop over [index["files"]]. *)
Definition search_one_file (sdk_data_dir : gmap string document) (pat : pattern)
    (cs : bool) (max_results : Z)
    (results : gmap string (list string)) (file_info : FileInfo)
  : gmap string (list string) :=
  match saved_as file_info with
  | None => results
  | Some saved_name =>
      if bool_decide (saved_name = "") then results
      else match sdk_data_dir !! saved_name with
           | None => results
           | Some doc =>
               match _search_file doc pat cs max_results with
               | [] => results
               | matches => <[saved_name := matches]> results
               end
           end
  end.

(** An index is a dictionary with keys, hence true in [if not index]. *)
Definition search_code (indices : Store) (data_dir : DataDir) (sdk query : string)
    (options : SearchOptions) : gmap string (list string) :=
  match get_index indices sdk with
  | None => ∅
  | Some index =>
      let cs := case_sensitive options in
      let prepared :=
        if regex options then Compiled <$> re_compile query (negb cs)
        else Some (Literal (if cs then query else PyStr.lower query)) in
      match prepared with
      | None => invalid_regex
      | Some pat =>
          match data_dir !! sdk with
          | None => ∅
          | Some sdk_data_dir =>
              foldl (search_one_file sdk_data_dir pat cs (max_results_per_file options))
                ∅ (ix_files index)
          end
      end
  end.

Definition search_all_sdks (indices : Store) (data_dir : DataDir) (query : string)
    (options : SearchOptions) : gmap string (gmap string (list string)) :=
  map_fold (fun sdk _ all_results =>
              let results := search_code indices data_dir sdk query options in
              if bool_decide (results = ∅) then all_results
              else <[sdk := results]> all_results)
    ∅ indices.

Definition find_class (indices : Store) (sdk class_name : string)
  : option ClassLocation :=
  match get_index indices sdk with
  | None => None
  | Some index => ix_classes index !! class_name
  end.

Definition find_function (indices : Store) (sdk function_name : string)
  : option FunctionLocation :=
  match get_index indices sdk with
  | None => None
  | Some index => ix_functions index !! function_name
  end.

(** [len(line) - len(line.lstrip())]. *)
Definition indent (line : string) : nat :=
  PyStr.len line - PyStr.len (PyStr.lstrip line).

(** The first line that contains [needle], with the lines after it. *)
Fixpoint find_class_start (needle : string) (lines : list string)
  : option (string * list string) :=
  match lines with
  | [] => None
  | line :: rest =>
      if PyStr.contains needle line then Some (line, rest)
      else find_class_start needle rest
  end.

(** The loop over the lines after the class line. *)
Fixpoint class_body (lines : list string) (base_indent : nat)
    (result_lines : list string) : list string :=
  match lines with
  | [] => result_lines
  | line :: rest =>
      if bool_decide (PyStr.strip line = "") then
        class_body rest base_indent (result_lines ++ [line])
      else
        let current_indent := indent line in
        if (current_indent <=? base_indent)
           && negb (bool_decide (PyStr.strip line = ""))
        then result_lines
        else class_body rest base_indent (result_lines ++ [line])
  end.

Definition _extract_class_from_content (content class_name : string) (start_line : nat)
  : string :=
  let lines := PyStr.split PyStr.LF content in
  match find_class_start ("class " +:+ class_name) lines with
  | None => "Class " +:+ class_name +:+ " not found in file"
  | Some (first, rest) =>
      PyStr.join (String PyStr.LF "") (class_body rest (indent first) [first])
  end.

Definition get_class_source (indices : Store) (data_dir : DataDir)
    (sdk class_name : string) : option string :=
  match find_class indices sdk class_name with
  | None => None
  | Some class_info =>
      let file_name := cl_file class_info in
      if bool_decide (file_name = "") then None
      else match data_dir !! sdk ≫= (fun d => d !! file_name) with
           | None => None
           | Some (Unreadable e) => Some ("Error reading class source: " +:+ e)
           | Some (Text content) =>
               Some (_extract_class_from_content content class_name (cl_line class_info))
           end
  end.

Definition example_patterns (topic : string) : list string :=
  [ "def.*" +:+ topic;
    "class.*" +:+ topic;
    topic +:+ "\s*\(";
    "@" +:+ topic;
    "self\." +:+ topic ].

Definition example_options : SearchOptions :=
  {| case_sensitive := false; max_results_per_file := 5; regex := true |}.

(** The inner loop of [find_examples]: the matches of one query join the
    list kept for their file. *)
Definition extend_results (all_results results : gmap string (list string))
  : gmap string (list string) :=
  map_fold (fun file matches all_results =>
              <[file := default [] (all_results !! file) ++ matches]> all_results)
    all_results results.

Definition find_examples (indices : Store) (data_dir : DataDir) (sdk topic : string)
  : gmap string (list string) :=
  foldl (fun all_results pat =>
           extend_results all_results
             (search_code indices data_dir sdk pat example_options))
    ∅ (example_patterns topic).

End Search.

(** ** A regular-expression engine for a fragment of [re]

    The fragment: literal characters, [.], a postfix [*] on one atom, and the
    escapes [\s] and backslash-punctuation. A [*] with nothing to repeat, a
    second [*] in a row, an unescaped bracket, brace, parenthesis, [+], [?],
    [|], [^] or [$], an escaped letter or digit other than [s], and a
    trailing backslash do not compile. *)

Module FragmentRe.

Inductive atom := Lit (c : ascii) | AnyChar | Space.
Inductive piece := One (a : atom) | Star (a : atom).

Definition is_meta (c : ascii) : bool :=
  PyStr.infixb [c] (PyStr.chars ".^$*+?{}[]|()\").

Definition is_alnum (c : ascii) : bool :=
  let n := nat_of_ascii c in
  ((48 <=? n) && (n <=? 57)) || ((65 <=? n) && (n <=? 90))
  || ((97 <=? n) && (n <=? 122)) || (128 <=? n).

(** The atom at the head of the pattern and how many characters spell it. *)
Definition parse_atom (l : list ascii) : option (atom * nat) :=
  match l with
  | [] => None
  | "\"%char :: c :: _ =>
      if bool_decide (c = "s"%char) then Some (Space, 2)
      else if is_alnum c then None else Some (Lit c, 2)
  | "."%char :: _ => Some (AnyChar, 1)
  | c :: _ => if is_meta c then None else Some (Lit c, 1)
  end.

Fixpoint parse (fuel : nat) (l : list ascii) : option (list piece) :=
  match fuel, l with
  | _, [] => Some []
  | 0, _ => None
  | S fuel', _ =>
      match parse_atom l with
      | None => None
      | Some (a, n) =>
          match drop n l with
          | "*"%char :: rest => cons (Star a) <$> parse fuel' rest
          | rest => cons (One a) <$> parse fuel' rest
          end
      end
  end.

Definition atom_matches (ignore_case : bool) (a : atom) (c : ascii) : bool :=
  match a with
  | Lit x =>
      if ignore_case then bool_decide (PyStr.lower_char x = PyStr.lower_char c)
      else bool_decide (x = c)
  | AnyChar => negb (bool_decide (c = PyStr.LF))
  | Space => PyStr.isspace c
  end.

(** The pattern matches a prefix of the text. *)
Fixpoint match_here (ic : bool) (r : list piece) (s : list ascii) : bool :=
  match r with
  | [] => true
  | One a :: r' =>
      match s with
      | c :: s' => atom_matches ic a c && match_here ic r' s'
      | [] => false
      end
  | Star a :: r' =>
      (fix star (s : list ascii) : bool :=
         match_here ic r' s
         || match s with
            | c :: s' => atom_matches ic a c && star s'
            | [] => false
            end) s
  end.

Fixpoint search_from (ic : bool) (r : list piece) (s : list ascii) : bool :=
  match_here ic r s
  || match s with [] => false | _ :: s' => search_from ic r s' end.

Definition compile (query : string) (ignore_case : bool) : option (bool * list piece) :=
  pair ignore_case <$> parse (String.length query) (PyStr.chars query).

Definition search (p : bool * list piece) (line : string) : bool :=
  search_from (fst p) (snd p) (PyStr.chars line).

End FragmentRe.

Definition fragment_re : ReEngine :=
  {| Pattern := bool * list FragmentRe.piece;
     re_compile := FragmentRe.compile;
     re_search := FragmentRe.search |}.

(** ** [fnmatch] for patterns made of literal characters, [*] and [?] *)

Fixpoint wildcard_match (p : list ascii) (s : list ascii) : bool :=
  match p with
  | [] => match s with [] => true | _ => false end
  | "*"%char :: p' =>
      (fix star (s : list ascii) : bool :=
         wildcard_match p' s
         || match s with [] => false | _ :: s' => star s' end) s
  | "?"%char :: p' =>
      match s with [] => false | _ :: s' => wildcard_match p' s' end
  | c :: p' =>
      match s with
      | [] => false
      | d :: s' => bool_decide (c = d) && wildcard_match p' s'
      end
  end.

Definition fragment_fnmatch : FnMatch :=
  fun name pat => wildcard_match (PyStr.chars pat) (PyStr.chars name).

(** ** Vocabulary of the statements *)

(** Both separators become an underscore. *)
Definition flatten_char (c : ascii) : ascii :=
  if bool_decide (c = "\"%char) then "_"%char
  else if bool_decide (c = "/"%char) then "_"%char else c.

(** The path holds no underscore and no backslash. *)
Definition separator_free (rel : string) : bool :=
  forallb (fun c => negb (bool_decide (c = "_"%char)) && negb (bool_decide (c = "\"%char)))
    (PyStr.chars rel).

(** The part of a display name between the prefix and [.md]. *)
Definition flat_name (rel : string) : string :=
  let name := PyStr.replace "\" "_" (PyStr.replace "/" "_" rel) in
  if PyStr.endswith name ".py" then PyStr.drop_end 3 name else name.

(** The function declarations, asynchronous or not, whose parent is the
    root of the file: name, line, and whether declared asynchronous. *)
Definition declared_at_top_level (tree : node) : list (string * nat * bool) :=
  match tree with
  | Module_ body =>
      flat_map (fun n =>
        match n with
        | FunctionDef name lineno _ => [(name, lineno, false)]
        | AsyncFunctionDef name lineno _ => [(name, lineno, true)]
        | _ => []
        end) body
  | _ => []
  end.

(** ** A single-file SDK

    One type [Widget] with a member function [run] at line 5, and a
    top-level function [helper] declared asynchronous at line 20. *)

Definition widget_text : string :=
  PyStr.join (String PyStr.LF "")
    (["class Widget:"; "    # a widget"; ""; "    # run it"; "    def run(self):";
      "        return 1"]
     ++ replicate 13 ""
     ++ ["async def helper():"; "    return 2"]).

Definition widget_tree : node :=
  Module_ [ ClassDef "Widget" 1 [] [FunctionDef "run" 5 [Other []]];
            AsyncFunctionDef "helper" 20 [Other []] ].

Definition widget_file : SourceFile :=
  {| path_rel := "widget.py"; path_abs := "/cache/sdk/widget.py";
     read_text := Some widget_text; ast_parse := Parsed widget_tree |}.

Definition widget_sdk : SourceTree :=
  fun pat => Some (if bool_decide (pat = "**/*.py") then [widget_file] else []).

Definition no_config : Config :=
  {| cfg_name := None; cfg_description := None; cfg_concepts := None;
     cfg_file_patterns := None; cfg_exclude_patterns := None |}.

(** The index a call of [index_sdk] returned; for a call that raised, the
    dictionary the call started from. *)
Definition returned_index (sdk : string) (config : Config)
    (result : Store * option SdkIndex) : SdkIndex :=
  default (initial_index sdk config) (snd result).

(** The index [index_sdk] builds for it, from an empty store. *)
Definition widget_index : SdkIndex :=
  returned_index "sdk" no_config
    (index_sdk (H := fragment_fnmatch) ∅ "sdk" widget_sdk no_config).

(** The index [index_sdk] builds for the same tree under the empty
    identifier. *)
Definition unnamed_index : SdkIndex :=
  returned_index "" no_config
    (index_sdk (H := fragment_fnmatch) ∅ "" widget_sdk no_config).

(** Every index sits under its own identifier, and the identifier is a
    non-empty file-name component. *)
Definition well_identified (indices : Store) : Prop :=
  map_Forall (fun k index =>
    sdk_id index = k /\ k <> "" /\ PyStr.contains "/" k = false) indices.

(** No index file among the entries is malformed. *)
Definition all_well_formed (entries : list (string * persisted)) : Prop :=
  Forall (fun e => is_index_file (fst e) = true -> snd e <> Malformed) entries.

(** The document saved for [widget.py]: the relative path as a header, then
    the source fenced as code. *)
Definition widget_doc : document :=
  Text (PyStr.join (String PyStr.LF "")
          ["# widget.py"; ""; "```python"; widget_text; "```"]).

Definition widget_store : Store := {[ "sdk" := widget_index ]}.

Definition widget_data : DataDir :=
  {[ "sdk" := {[ "sdk_widget.md" := widget_doc ]} ]}.

(** The matches kept for [file] once the results of the queries, in order,
    have been merged: absent when no query has the file, otherwise the
    lists of the queries that have it, one after the other. *)
Definition merged_matches (per_query : list (gmap string (list string)))
    (file : string) : option (list string) :=
  match omap (fun results => results !! file) per_query with
  | [] => None
  | found => Some (concat found)
  end.

(** A line is blank when it holds white space only. *)
Definition is_blank (line : string) : bool := forallb PyStr.isspace (PyStr.chars line).

(** The indentation of a line: how many white-space characters stand at its
    head. *)
Fixpoint leading_whitespace (l : list ascii) : nat :=
  match l with
  | c :: l' => if PyStr.isspace c then S (leading_whitespace l') else 0
  | [] => 0
  end.

Definition indentation (line : string) : nat := leading_whitespace (PyStr.chars line).

(** The block below a declaration at indentation 0, in the words of the
    specification: blank lines are taken unconditionally, other lines while
    their indentation is strictly greater than 0; the first non-blank line
    at indentation 0 ends the block and is left out. *)
Fixpoint block_below (following : list string) : list string :=
  match following with
  | [] => []
  | line :: rest =>
      if is_blank line then line :: block_below rest
      else if 0 <? indentation line then line :: block_below rest
      else []
  end.

(** Every index record already in the directory is well formed and named
    after the identifier it carries. *)
Definition consistent_directory (dir : Directory) : Prop :=
  map_Forall (fun name record =>
    is_index_file name = true ->
    match record with
    | Malformed => False
    | Stored index => name = index_file_name (sdk_id index)
    end) dir.

(** The entries are index records, each named after its identifier. *)
Definition named_records (entries : list (string * persisted)) : Prop :=
  Forall (fun e => match snd e with
                   | Malformed => False
                   | Stored index => fst e = index_file_name (sdk_id index)
                   end) entries.

(** The index [index_sdk] builds for the same tree under another
    identifier. *)
Definition other_index : SdkIndex :=
  returned_index "other" no_config
    (index_sdk (H := fragment_fnmatch) ∅ "other" widget_sdk no_config).

(** [n] is [tree] itself or lies below it. *)
Inductive descendant : node -> node -> Prop :=
| descendant_self (tree : node) : descendant tree tree
| descendant_child (tree child n : node) :
    In child (iter_child_nodes tree) -> descendant child n -> descendant tree n.

(** *** What a build records *)

(** [file_info] with the saved name [index_sdk] gives it. *)
Definition recorded_as (sdk : string) (file_info : FileInfo) : FileInfo :=
  {| relative_path := relative_path file_info;
     original_path := original_path file_info;
     fi_classes := fi_classes file_info;
     fi_functions := fi_functions file_info;
     fi_imports := fi_imports file_info;
     fi_size := fi_size file_info; fi_lines := fi_lines file_info;
     saved_as := Some (_generate_saved_name (relative_path file_info) sdk) |}.

(** What [index_sdk] records for one selected file: nothing when the file is
    excluded or when analysing it raises. *)
Definition recorded_file `{FnMatch} (sdk : string) (exclude_patterns : list string)
    (f : SourceFile) : option FileInfo :=
  if _should_exclude f exclude_patterns then None
  else recorded_as sdk <$> _analyze_file f.

(** The function and class declarations of the listed files, in order, each
    with the saved name of its file. *)
Definition listed_functions (files : list FileInfo) : list (string * FunctionInfo) :=
  flat_map (fun fi => List.map (pair (default "" (saved_as fi))) (fi_functions fi)) files.

Definition listed_classes (files : list FileInfo) : list (string * ClassInfo) :=
  flat_map (fun fi => List.map (pair (default "" (saved_as fi))) (fi_classes fi)) files.

Definition function_location (p : string * FunctionInfo) : FunctionLocation :=
  {| fl_file := fst p; fl_line := f_line (snd p) |}.

Definition class_location (p : string * ClassInfo) : ClassLocation :=
  {| cl_file := fst p; cl_line := c_line (snd p); cl_methods := c_methods (snd p) |}.

(** The maps of an index agree with its list of files. *)
Definition maps_follow_files (index : SdkIndex) : Prop :=
  ix_functions index
  = foldl (fun functions p => <[f_name (snd p) := function_location p]> functions)
      ∅ (listed_functions (ix_files index))
  /\ ix_classes index
     = foldl (fun classes p => <[c_name (snd p) := class_location p]> classes)
         ∅ (listed_classes (ix_files index))
  /\ ix_file_map index
     = foldl (fun file_map fi => <[default "" (saved_as fi) := relative_path fi]> file_map)
         ∅ (ix_files index)
  /\ ix_imports index = ∅.

(** *** What a load reads *)

(** The indices of the well-formed index records among the entries that
    carry the identifier [sdk], in the order of the entries. *)
Definition records_for (sdk : string) (entries : list (string * persisted))
  : list SdkIndex :=
  omap (fun e =>
          match snd e with
          | Stored index =>
              if is_index_file (fst e) && bool_decide (sdk_id index = sdk)
              then Some index else None
          | Malformed => None
          end) entries.

(** *** A file with two classes, the name of one beginning the other's *)

Definition factory_text : string :=
  PyStr.join (String PyStr.LF "")
    ["class WidgetFactory:"; "    def make(self):"; "        return Widget()"; "";
     "class Widget:"; "    def run(self):"; "        return 1"].

Definition factory_tree : node :=
  Module_ [ ClassDef "WidgetFactory" 1 [] [FunctionDef "make" 2 [Other []]];
            ClassDef "Widget" 5 [] [FunctionDef "run" 6 [Other []]] ].

Definition factory_file : SourceFile :=
  {| path_rel := "factory.py"; path_abs := "/cache/sdk/factory.py";
     read_text := Some factory_text; ast_parse := Parsed factory_tree |}.

Definition factory_sdk : SourceTree :=
  fun pat => Some (if bool_decide (pat = "**/*.py") then [factory_file] else []).

Definition factory_index : SdkIndex :=
  returned_index "sdk" no_config
    (index_sdk (H := fragment_fnmatch) ∅ "sdk" factory_sdk no_config).

Definition factory_doc : document :=
  Text (PyStr.join (String PyStr.LF "")
          ["# factory.py"; ""; "```python"; factory_text; "```"]).

Definition factory_store : Store := {[ "sdk" := factory_index ]}.

Definition factory_data : DataDir :=
  {[ "sdk" := {[ "sdk_factory.md" := factory_doc ]} ]}.

(** *** Vocabulary of the further properties *)

(** Every index of the store sits under its own identifier. *)
Definition keyed (indices : Store) : Prop :=
  map_Forall (fun k index => sdk_id index = k) indices.


(** The entries of the lines that match, in order, the first line having
    number [line_num]. *)
Fixpoint numbered_matches `{ReEngine} (lines : list string) (line_num : nat)
    (pat : pattern) (case_sensitive : bool) : list string :=
  match lines with
  | [] => []
  | line :: rest =>
      (if _line_matches line pat case_sensitive then [match_entry line_num line] else [])
      ++ numbered_matches rest (S line_num) pat case_sensitive
  end.

(** The most matches one file can bring: the cap, and 1 for a cap below 1. *)
Definition effective_cap (max_results : Z) : nat := Nat.max 1 (Z.to_nat max_results).

(** The pattern [search_code] prepares from the query: nothing when the
    query does not compile in regex mode. *)
Definition prepared_pattern `{ReEngine} (query : string) (options : SearchOptions)
  : option pattern :=
  if regex options then Compiled <$> re_compile query (negb (case_sensitive options))
  else Some (Literal (if case_sensitive options then query else PyStr.lower query)).

(** The block below a declaration at indentation [base]: blank lines, and
    other lines while they are indented by more than [base]. *)
Fixpoint block_at (base : nat) (following : list string) : list string :=
  match following with
  | [] => []
  | line :: rest =>
      if is_blank line then line :: block_at base rest
      else if base <? indentation line then line :: block_at base rest
      else []
  end.

(** What one pass over the document called [name] contributes to the
    result of [search_code]: nothing without a name, without a document or
    without a match. *)
Definition found_matches `{ReEngine} (docs : gmap string document) (pat : pattern)
    (cs : bool) (max_results : Z) (name : string) : option (list string) :=
  if bool_decide (name = "") then None
  else match docs !! name with
       | None => None
       | Some doc =>
           match _search_file doc pat cs max_results with
           | [] => None
           | matches => Some matches
           end
       end.

(** * Properties *)

(** ** Strings *)

Section PyStrFacts.
Import PyStr.

Lemma chars_app (a b : string) : chars (a +:+ b) = chars a ++ chars b.
Proof. induction a as [|c a IH]; simpl; [done | by rewrite IH]. Qed.

Lemma chars_inj (a b : string) : chars a = chars b -> a = b.
Proof.
  intros E. rewrite <- (string_of_list_ascii_of_string a),
    <- (string_of_list_ascii_of_string b). by rewrite E.
Qed.

Lemma chars_str (l : list ascii) : chars (str l) = l.
Proof. apply list_ascii_of_string_of_list_ascii. Qed.

Lemma app_inv_tail_str (a b t : string) : a +:+ t = b +:+ t -> a = b.
Proof.
  intros E. apply chars_inj. apply (f_equal list_ascii_of_string) in E.
  rewrite !chars_app in E. by apply app_inv_tail in E.
Qed.

Lemma prefixb_spec (p l : list ascii) :
  prefixb p l = true <-> exists t, l = p ++ t.
Proof.
  revert l. induction p as [|a p IH]; intros l; simpl.
  - split; [eauto | done].
  - destruct l as [|b l]; simpl.
    + split; [done | intros [t Ht]; discriminate].
    + rewrite andb_true_iff, bool_decide_eq_true, IH. split.
      * intros [-> [t ->]]. eauto.
      * intros [t Ht]. injection Ht as -> ->. eauto.
Qed.

Lemma endswith_spec (s suf : string) :
  endswith s suf = true <-> exists h, chars s = h ++ chars suf.
Proof.
  unfold endswith. rewrite prefixb_spec. split.
  - intros [t Ht]. exists (rev t).
    apply (f_equal (@rev ascii)) in Ht.
    by rewrite rev_involutive, rev_app_distr, rev_involutive in Ht.
  - intros [h Hh]. exists (rev h). by rewrite Hh, rev_app_distr.
Qed.

Lemma drop_end_app (h suf : list ascii) :
  drop_end (length suf) (str (h ++ suf)) = str h.
Proof.
  unfold drop_end. rewrite chars_str, length_app.
  replace (length h + length suf - length suf) with (length h) by lia.
  by rewrite take_app_length.
Qed.

End PyStrFacts.

Example strip_line :
  PyStr.strip ("    def run(self):  " +:+ String PyStr.LF "") = "def run(self):".
Proof. reflexivity. Qed.

Example split_empty_text : PyStr.split PyStr.LF "" = [""].
Proof. reflexivity. Qed.

Example iter_lines_keeps_ends :
  PyStr.iter_lines ("a" +:+ String PyStr.LF "b")
  = ["a" +:+ String PyStr.LF ""; "b"].
Proof. reflexivity. Qed.

Example lower_mixed_case : PyStr.lower "Class Widget" = "class widget".
Proof. reflexivity. Qed.

Example fragment_compiles_call_pattern :
  FragmentRe.compile "run\s*\(" true
  = Some (true, [FragmentRe.One (FragmentRe.Lit "r"); FragmentRe.One (FragmentRe.Lit "u");
                 FragmentRe.One (FragmentRe.Lit "n"); FragmentRe.Star FragmentRe.Space;
                 FragmentRe.One (FragmentRe.Lit "(")]).
Proof. reflexivity. Qed.

Example fragment_rejects_open_group : FragmentRe.compile "(" true = None.
Proof. reflexivity. Qed.

Example fragment_rejects_bare_star : FragmentRe.compile "*a" false = None.
Proof. reflexivity. Qed.

(** A literal query, case-insensitive, against a document with
    [class widget:] on line 3. *)
Example literal_search_ignores_case :
  _search_file (H := fragment_re)
    (Text (PyStr.join (String PyStr.LF "") ["# w.py"; ""; "class widget:"; "    pass"]))
    (Literal (PyStr.lower "Widget")) false 10
  = ["Line 3: class widget:"].
Proof. reflexivity. Qed.

(** ** Display names ([_generate_saved_name]) *)

Section SavedName.
Import PyStr.

Lemma flattened_chars (rel : string) :
  chars (replace "\" "_" (replace "/" "_" rel)) = List.map flatten_char (chars rel).
Proof.
  unfold replace. rewrite !chars_str, List.map_map.
  apply List.map_ext. intros c. unfold flatten_char.
  repeat case_bool_decide; congruence.
Qed.

Lemma flatten_char_inj (l1 l2 : list ascii) :
  forallb (fun c => negb (bool_decide (c = "_"%char)) && negb (bool_decide (c = "\"%char))) l1 = true ->
  forallb (fun c => negb (bool_decide (c = "_"%char)) && negb (bool_decide (c = "\"%char))) l2 = true ->
  List.map flatten_char l1 = List.map flatten_char l2 -> l1 = l2.
Proof.
  revert l2. induction l1 as [|a l1 IH]; intros [|b l2]; simpl; try done.
  rewrite !andb_true_iff, !negb_true_iff, !bool_decide_eq_false.
  intros [[Ha1 Ha2] H1] [[Hb1 Hb2] H2] E. injection E as Eab E.
  f_equal; [|by apply IH].
  unfold flatten_char in Eab. repeat case_bool_decide; congruence.
Qed.

Lemma flatten_char_py (c d : ascii) :
  In d (chars ".py") -> flatten_char c = d <-> c = d.
Proof.
  simpl. unfold flatten_char. intros [<-|[<-|[<-|[]]]];
    repeat case_bool_decide; split; congruence.
Qed.

Lemma prefixb_flatten (p l : list ascii) :
  (forall d, In d p -> In d (chars ".py")) ->
  prefixb p (List.map flatten_char l) = prefixb p l.
Proof.
  revert l. induction p as [|a p IH]; intros l Hp; [done|].
  destruct l as [|b l]; [done|]. simpl.
  rewrite IH by (intros d Hd; apply Hp; by right).
  f_equal. apply bool_decide_ext. split; intros E.
  - symmetry. apply (flatten_char_py b a); [apply Hp; by left | done].
  - symmetry. apply (flatten_char_py b a); [apply Hp; by left | done].
Qed.

Lemma endswith_flattened (rel : string) :
  endswith (replace "\" "_" (replace "/" "_" rel)) ".py" = endswith rel ".py".
Proof.
  unfold endswith. rewrite flattened_chars, <- List.map_rev.
  apply prefixb_flatten. intros d Hd. by apply in_rev.
Qed.

Lemma saved_name_flat (rel sdk : string) :
  _generate_saved_name rel sdk = sdk +:+ "_" +:+ flat_name rel +:+ ".md".
Proof. reflexivity. Qed.

Lemma flat_name_inj (p q : string) :
  separator_free p = true -> separator_free q = true ->
  endswith p ".py" = endswith q ".py" ->
  flat_name p = flat_name q -> p = q.
Proof.
  intros Hp Hq Hext. unfold flat_name. rewrite !endswith_flattened, <- Hext.
  destruct (endswith p ".py") eqn:Ep.
  - symmetry in Hext.
    apply endswith_spec in Ep as [hp Ep]. apply endswith_spec in Hext as [hq Eq].
    intros E. apply chars_inj. rewrite Ep, Eq. f_equal.
    unfold separator_free in Hp, Hq. rewrite Ep in Hp. rewrite Eq in Hq.
    rewrite forallb_app in Hp, Hq.
    apply andb_true_iff in Hp as [Hp _]. apply andb_true_iff in Hq as [Hq _].
    apply (flatten_char_inj _ _ Hp Hq).
    apply (f_equal list_ascii_of_string) in E.
    rewrite <- (string_of_list_ascii_of_string (replace "\" "_" (replace "/" "_" p))) in E.
    rewrite <- (string_of_list_ascii_of_string (replace "\" "_" (replace "/" "_" q))) in E.
    rewrite !flattened_chars, Ep, Eq, !List.map_app in E.
    change 3 with (length (List.map flatten_char (chars ".py"))) in E.
    by rewrite !drop_end_app, !chars_str in E.
  - intros E. apply chars_inj. apply (f_equal list_ascii_of_string) in E.
    rewrite !flattened_chars in E. by apply flatten_char_inj.
Qed.

End SavedName.

(** C7, as stated, fails: a separator and an underscore flatten to the
    same character. *)
Lemma saved_name_collision :
  "a/b.py" <> "a_b.py" /\
  _generate_saved_name "a/b.py" "sdk" = _generate_saved_name "a_b.py" "sdk".
Proof. split; [discriminate | reflexivity]. Qed.

(** C7 (amended): for a fixed SDK identifier the display name is injective
    over the relative paths that hold no underscore and no backslash and
    agree on ending in [.py]. *)
Theorem saved_name_injective (sdk p q : string) :
  separator_free p = true -> separator_free q = true ->
  PyStr.endswith p ".py" = PyStr.endswith q ".py" ->
  _generate_saved_name p sdk = _generate_saved_name q sdk -> p = q.
Proof.
  intros Hp Hq Hext E. rewrite !saved_name_flat in E.
  apply String.app_inj, String.app_inj, app_inv_tail_str in E.
  by apply flat_name_inj.
Qed.

Lemma saved_name_injective_witness :
  separator_free "pkg/core.py" = true /\ separator_free "pkg/core.py" = true /\
  ("pkg/core.py" = "pkg/core.py").
Proof.
  split; [reflexivity|]. split; [reflexivity|].
  apply (saved_name_injective "sdk" "pkg/core.py" "pkg/core.py"); reflexivity.
Defined.

(** ** The structural extractor *)

Lemma walk_queue_length (fuel : nat) (todo : list node) :
  list_sum (List.map node_size todo) <= fuel ->
  length (walk_queue fuel todo) = list_sum (List.map node_size todo).
Proof.
  revert todo. induction fuel as [|fuel IH]; intros todo Hle.
  - destruct todo as [|n rest]; [done|]. simpl in Hle. destruct n; simpl in Hle; lia.
  - destruct todo as [|n rest]; [done|]. simpl walk_queue. simpl length.
    assert (list_sum (List.map node_size (rest ++ iter_child_nodes n))
            = list_sum (List.map node_size rest) + (node_size n - 1)) as E.
    { rewrite List.map_app, list_sum_app. f_equal.
      destruct n; simpl; rewrite ?List.map_app, ?list_sum_app; simpl; lia. }
    rewrite IH; rewrite E; simpl in *; destruct n; simpl in *; lia.
Qed.

(** [walk] yields every node of the tree: the fuel is never short. *)
Lemma walk_length (tree : node) : length (walk tree) = node_size tree.
Proof.
  unfold walk. rewrite walk_queue_length; simpl; lia.
Qed.

(** No callable the extractor reports is tagged asynchronous. *)
Lemma extracted_never_async (tree : node) (f : FunctionInfo) :
  In f (_extract_functions tree) -> f_async f = false.
Proof.
  unfold _extract_functions. rewrite in_flat_map. intros [n [_ Hn]].
  destruct n; simpl in Hn; try done. by destruct Hn as [<-|[]].
Qed.

Lemma walk_queue_complete (fuel : nat) (todo : list node) (n : node) :
  list_sum (List.map node_size todo) <= fuel ->
  (exists tree, In tree todo /\ descendant tree n) ->
  In n (walk_queue fuel todo).
Proof.
  revert todo. induction fuel as [|fuel IH]; intros todo Hle (tree & Hin & Hdesc).
  - destruct todo as [|t rest]; [done|]. simpl in Hle. destruct t; simpl in Hle; lia.
  - destruct todo as [|t rest]; [done|]. simpl walk_queue.
    assert (list_sum (List.map node_size (rest ++ iter_child_nodes t)) <= fuel) as Hle'.
    { rewrite List.map_app, list_sum_app. simpl in Hle.
      destruct t; simpl in *; rewrite ?List.map_app, ?list_sum_app; simpl; lia. }
    destruct Hin as [->|Hin].
    + destruct Hdesc as [t|t child n Hchild Hdesc]; [by left|].
      right. apply IH; [done|]. exists child. split; [|done].
      apply in_or_app. by right.
    + right. apply IH; [done|]. exists tree. split; [|done].
      apply in_or_app. by left.
Qed.

(** [walk] reaches every node of the tree. *)
Lemma walk_complete (tree n : node) : descendant tree n -> In n (walk tree).
Proof.
  intros Hdesc. apply walk_queue_complete; [simpl; lia|].
  exists tree. split; [by left | done].
Qed.

(** Every synchronous function declaration of the tree is reported,
    whatever its parent. *)
Lemma extracted_any_depth (tree : node) (name : string) (lineno : nat) (body : list node) :
  descendant tree (FunctionDef name lineno body) ->
  In {| f_name := name; f_line := lineno; f_async := false |} (_extract_functions tree).
Proof.
  intros Hn%walk_complete. unfold _extract_functions. rewrite in_flat_map.
  exists (FunctionDef name lineno body). split; [done | by left].
Qed.

(** C1, the code on the scenario of the claim: [helper], declared
    asynchronous at line 20 at the top level, is not extracted and has no
    entry among the callables of the index. *)
Theorem async_helper_not_indexed :
  In ("helper", 20, true) (declared_at_top_level widget_tree) /\
  _extract_functions widget_tree = [{| f_name := "run"; f_line := 5; f_async := false |}] /\
  ix_functions widget_index !! "helper" = None.
Proof. split; [by left | split; reflexivity]. Qed.

(** C2, the code on the same file: [run], a member function of [Widget],
    is no top-level declaration, and is the one callable reported. *)
Theorem method_reported_as_callable :
  declared_at_top_level widget_tree = [("helper", 20, true)] /\
  List.map f_name (_extract_functions widget_tree) = ["run"] /\
  ix_functions widget_index !! "run"
  = Some {| fl_file := "sdk_widget.md"; fl_line := 5 |}.
Proof. repeat split; reflexivity. Qed.

(** ** The index builder *)

(** C3, as stated, fails: a build on an empty store leaves the store
    holding the index built. *)
Lemma index_sdk_changes_store :
  fst (index_sdk (H := fragment_fnmatch) ∅ "sdk" widget_sdk no_config) !! "sdk"
  = Some widget_index /\
  (∅ : Store) !! "sdk" = None.
Proof. split; [apply lookup_insert_eq | apply lookup_empty]. Qed.

Section IndexStructure.
Context `{FnMatch}.

Lemma index_file_header (sdk : string) (index : SdkIndex) (f : SourceFile) :
  sdk_id (index_file sdk index f) = sdk_id index
  /\ ix_name (index_file sdk index f) = ix_name index
  /\ ix_description (index_file sdk index f) = ix_description index
  /\ ix_concepts (index_file sdk index f) = ix_concepts index.
Proof. unfold index_file. by destruct (_analyze_file f). Qed.

Lemma index_fold_header (sdk : string) (exclude_patterns : list string)
    (files : list SourceFile) (index : SdkIndex) :
  let built := foldl (fun index f =>
                        if _should_exclude f exclude_patterns then index
                        else index_file sdk index f) index files in
  sdk_id built = sdk_id index
  /\ ix_name built = ix_name index
  /\ ix_description built = ix_description index
  /\ ix_concepts built = ix_concepts index.
Proof.
  revert index. induction files as [|f files IH]; intros index; [done|].
  simpl. destruct (IH (if _should_exclude f exclude_patterns then index
                       else index_file sdk index f)) as (-> & -> & -> & ->).
  destruct (_should_exclude f exclude_patterns); [done|]. apply index_file_header.
Qed.

Lemma foldl_pair_map {A B} (f : B -> string * A -> B) (s : string) (l : list A) (b : B) :
  foldl (fun acc x => f acc (s, x)) b l = foldl f b (List.map (pair s) l).
Proof. revert b. induction l as [|x l IH]; intros b; [done | apply IH]. Qed.

Lemma index_file_files (sdk : string) (index : SdkIndex) (f : SourceFile) :
  ix_files (index_file sdk index f)
  = ix_files index ++ option_list (recorded_as sdk <$> _analyze_file f).
Proof.
  unfold index_file. destruct (_analyze_file f); simpl; [done|].
  by rewrite (right_id_L [] (++)).
Qed.

Lemma index_file_maps (sdk : string) (index : SdkIndex) (f : SourceFile) :
  maps_follow_files index -> maps_follow_files (index_file sdk index f).
Proof.
  intros (Hf & Hc & Hm & Hi). unfold index_file.
  destruct (_analyze_file f) as [info|]; [|done].
  unfold maps_follow_files, listed_functions, listed_classes. simpl.
  rewrite !flat_map_app, !foldl_app. simpl. rewrite !(right_id_L [] (++)).
  rewrite <- !foldl_pair_map. by rewrite Hf, Hc, Hm, Hi.
Qed.

Lemma index_fold_files (sdk : string) (exclude_patterns : list string)
    (files : list SourceFile) (index : SdkIndex) :
  ix_files (foldl (fun index f =>
                     if _should_exclude f exclude_patterns then index
                     else index_file sdk index f) index files)
  = ix_files index ++ omap (recorded_file sdk exclude_patterns) files.
Proof.
  revert index. induction files as [|f files IH]; intros index.
  - simpl. by rewrite (right_id_L [] (++)).
  - simpl. rewrite IH. unfold recorded_file at 2.
    destruct (_should_exclude f exclude_patterns); [done|].
    rewrite index_file_files. destruct (_analyze_file f); simpl.
    + by rewrite <- (assoc_L (++)).
    + by rewrite (right_id_L [] (++)).
Qed.

Lemma index_fold_maps (sdk : string) (exclude_patterns : list string)
    (files : list SourceFile) (index : SdkIndex) :
  maps_follow_files index ->
  maps_follow_files (foldl (fun index f =>
                              if _should_exclude f exclude_patterns then index
                              else index_file sdk index f) index files).
Proof.
  revert index. induction files as [|f files IH]; intros index Hindex; [done|].
  simpl. apply IH. destruct (_should_exclude f exclude_patterns); [done|].
  by apply index_file_maps.
Qed.

(** A pattern [pathlib] rejects makes the loop over the patterns raise. *)
Lemma glob_all_rejects (source_path : SourceTree) (file_patterns : list string)
    (pattern : string) :
  In pattern file_patterns ->
  pattern = "" \/ PyStr.startswith pattern "/" = true ->
  glob_all source_path file_patterns = None.
Proof.
  intros Hin Hbad. induction file_patterns as [|p rest IH]; [done|].
  simpl. destruct Hin as [->|Hin].
  - unfold glob. destruct Hbad as [-> | ->]; [done|]. by rewrite orb_true_r.
  - rewrite (IH Hin). by destruct (glob source_path p).
Qed.

End IndexStructure.

(** The entry a key has after a run of insertions is the one of the last
    element inserted under that key. *)
Lemma foldl_insert_last {A B} (key : A -> string) (val : A -> B) (l : list A)
    (m : gmap string B) (k : string) :
  foldl (fun m x => <[key x := val x]> m) m l !! k
  = match last (filter (fun x => key x = k) l) with
    | Some x => Some (val x)
    | None => m !! k
    end.
Proof.
  revert m. induction l as [|x l IH]; intros m; [done|].
  simpl. rewrite IH, filter_cons. case_decide as Hk.
  - rewrite last_cons. destruct (last (filter _ l)); [done|].
    by rewrite <- Hk, lookup_insert_eq.
  - destruct (last (filter _ l)); [done|]. by rewrite lookup_insert_ne.
Qed.

Lemma filter_agree {A} (P Q : A -> Prop) `{!forall x, Decision (P x)}
    `{!forall x, Decision (Q x)} (l : list A) :
  Forall (fun x => P x <-> Q x) l -> filter P l = filter Q l.
Proof.
  induction 1 as [|x l Hx _ IH]; [done|].
  rewrite !filter_cons, IH. by repeat case_decide; try done; tauto.
Qed.

(** C3 (amended): a call of [index_sdk] whose include patterns all pass
    [glob] returns an index and has installed it: the store is the store
    before with this index under the identifier. The index carries the
    identifier and the name, description and concepts of the configuration;
    its files are the selected files, in path order, that no exclude pattern
    matches and whose analysis does not raise, each under its display name;
    its function, class and display-name maps hold for every name the last
    declaration, or file, of that name among those files, and its imports map
    is empty. When a [glob] raises, as it does on an empty pattern and on a
    pattern that starts at the root, the call returns nothing and the store
    is as before. *)
Theorem index_sdk_installs `{FnMatch} (indices : Store) (sdk : string)
    (source_path : SourceTree) (config : Config) :
  let file_patterns := default ["**/*.py"] (cfg_file_patterns config) in
  let exclude_patterns := default [] (cfg_exclude_patterns config) in
  (forall all_files,
     glob_all source_path file_patterns = Some all_files ->
     exists index,
       index_sdk indices sdk source_path config = (<[sdk := index]> indices, Some index)
       /\ sdk_id index = sdk
       /\ ix_name index = default sdk (cfg_name config)
       /\ ix_description index = default "" (cfg_description config)
       /\ ix_concepts index = default ∅ (cfg_concepts config)
       /\ ix_files index
          = omap (fun f =>
                    if _should_exclude f exclude_patterns then None
                    else recorded_as sdk <$> _analyze_file f)
              (sorted_set all_files)
       /\ (forall name,
             ix_functions index !! name
             = function_location
                 <$> last (filter (fun p => f_name (snd p) = name)
                             (listed_functions (ix_files index))))
       /\ (forall name,
             ix_classes index !! name
             = class_location
                 <$> last (filter (fun p => c_name (snd p) = name)
                             (listed_classes (ix_files index))))
       /\ (forall saved_name,
             ix_file_map index !! saved_name
             = relative_path
                 <$> last (filter (fun fi => saved_as fi = Some saved_name)
                             (ix_files index)))
       /\ ix_imports index = ∅)
  /\ (glob_all source_path file_patterns = None ->
      index_sdk indices sdk source_path config = (indices, None))
  /\ (forall pattern,
        In pattern file_patterns ->
        pattern = "" \/ PyStr.startswith pattern "/" = true ->
        index_sdk indices sdk source_path config = (indices, None)).
Proof.
  intros file_patterns exclude_patterns. split; [|split].
  - intros all_files Hglob. unfold index_sdk. fold file_patterns exclude_patterns.
    rewrite Hglob. eexists. split; [reflexivity|].
    destruct (index_fold_header sdk exclude_patterns (sorted_set all_files)
                (initial_index sdk config)) as (-> & -> & -> & ->).
    repeat (split; [reflexivity|]).
    assert (ix_files (foldl (fun index f =>
                               if _should_exclude f exclude_patterns then index
                               else index_file sdk index f)
                        (initial_index sdk config) (sorted_set all_files))
            = omap (recorded_file sdk exclude_patterns) (sorted_set all_files)) as Hfiles.
    { by rewrite index_fold_files. }
    split; [exact Hfiles|].
    destruct (index_fold_maps sdk exclude_patterns (sorted_set all_files)
                (initial_index sdk config)) as (Hf & Hc & Hm & Hi); [done|].
    split; [|split; [|split; [|done]]].
    + intros name. rewrite Hf, foldl_insert_last. by destruct (last _).
    + intros name. rewrite Hc, foldl_insert_last. by destruct (last _).
    + intros saved_name. rewrite Hm, foldl_insert_last.
      rewrite (filter_agree (fun fi => default "" (saved_as fi) = saved_name)
                 (fun fi => saved_as fi = Some saved_name)); [by destruct (last _)|].
      rewrite Hfiles. apply Forall_forall.
      intros fi (f & _ & Hfi)%list_elem_of_omap. unfold recorded_file in Hfi.
      destruct (_should_exclude f exclude_patterns); [done|].
      destruct (_analyze_file f); [|done]. injection Hfi as <-. simpl.
      split; [by intros -> | by intros [= ->]].
  - intros Hglob. unfold index_sdk. fold file_patterns. by rewrite Hglob.
  - intros pattern Hin Hbad. unfold index_sdk. fold file_patterns.
    by rewrite (glob_all_rejects source_path file_patterns pattern).
Qed.

Lemma index_sdk_installs_witness :
  exists index,
    index_sdk (H := fragment_fnmatch) ∅ "sdk" widget_sdk no_config
    = ({[ "sdk" := index ]}, Some index)
    /\ List.map relative_path (ix_files index) = ["widget.py"]
    /\ ix_classes index !! "Widget"
       = Some {| cl_file := "sdk_widget.md"; cl_line := 1;
                 cl_methods := [{| m_name := "run"; m_line := 5 |}] |}.
Proof.
  destruct (proj1 (index_sdk_installs (H := fragment_fnmatch) ∅ "sdk" widget_sdk no_config)
              [widget_file] eq_refl)
    as (index & Hresult & _ & _ & _ & _ & Hfiles & _ & Hclasses & _).
  exists index. split; [by rewrite Hresult, insert_empty|].
  split; [by rewrite Hfiles|]. rewrite (Hclasses "Widget"), Hfiles. reflexivity.
Defined.

(** The store is left alone when an include pattern is empty. *)
Example index_sdk_raises_on_empty_pattern :
  index_sdk (H := fragment_fnmatch) {[ "sdk" := widget_index ]} "sdk" widget_sdk
    {| cfg_name := None; cfg_description := None; cfg_concepts := None;
       cfg_file_patterns := Some ["**/*.py"; ""]; cfg_exclude_patterns := None |}
  = ({[ "sdk" := widget_index ]}, None).
Proof. reflexivity. Qed.

(** The indices of the examples are the ones the calls return. *)
Example widget_index_returned :
  index_sdk (H := fragment_fnmatch) ∅ "sdk" widget_sdk no_config
  = ({[ "sdk" := widget_index ]}, Some widget_index)
  /\ index_sdk (H := fragment_fnmatch) ∅ "" widget_sdk no_config
     = ({[ "" := unnamed_index ]}, Some unnamed_index)
  /\ index_sdk (H := fragment_fnmatch) ∅ "other" widget_sdk no_config
     = ({[ "other" := other_index ]}, Some other_index)
  /\ index_sdk (H := fragment_fnmatch) ∅ "sdk" factory_sdk no_config
     = ({[ "sdk" := factory_index ]}, Some factory_index).
Proof. repeat split; by rewrite <- insert_empty. Qed.

(** ** The index store: [save_indices] and [load_indices] *)

Section Persistence.

Lemma load_files_app (before after : list (string * persisted)) (indices : Store) :
  snd (load_files before indices) = Returned ->
  load_files (before ++ after) indices
  = load_files after (fst (load_files before indices)).
Proof.
  revert indices. induction before as [|[name [|index]] before IH]; intros indices; simpl.
  - done.
  - discriminate.
  - case_bool_decide; apply IH.
Qed.

Lemma load_files_returns (entries : list (string * persisted)) (indices : Store) :
  Forall (fun e => snd e <> Malformed) entries ->
  snd (load_files entries indices) = Returned.
Proof.
  revert indices. induction entries as [|[name [|index]] entries IH];
    intros indices Hwf; simpl.
  - done.
  - by apply Forall_cons in Hwf as [? _].
  - apply Forall_cons in Hwf as [_ Hwf]. case_bool_decide; by apply IH.
Qed.

Lemma filter_well_formed (entries : list (string * persisted)) :
  all_well_formed entries ->
  Forall (fun e => snd e <> Malformed)
    (List.filter (fun e => is_index_file (fst e)) entries).
Proof.
  intros Hwf. apply List.Forall_forall. intros e [He Hidx]%filter_In.
  apply List.Forall_forall with (x := e) in Hwf; auto.
Qed.

(** A well-formed record whose identifier is empty is passed over. *)
Lemma load_skips_unidentified (name : string) (index : SdkIndex)
    (rest : list (string * persisted)) (indices : Store) :
  sdk_id index = "" ->
  load_files ((name, Stored index) :: rest) indices = load_files rest indices.
Proof. intros E. simpl. by rewrite bool_decide_eq_true_2. Qed.

(** What a load that meets no malformed record leaves under [sdk]: the
    last record read that carries this identifier, or what the store held
    when no record carries it; nothing is stored under the empty
    identifier. *)
Lemma load_files_last (entries : list (string * persisted)) (indices : Store)
    (sdk : string) :
  Forall (fun e => snd e <> Malformed) entries ->
  fst (load_files entries indices) !! sdk
  = if bool_decide (sdk = "") then indices !! sdk
    else from_option Some (indices !! sdk)
           (last (omap (fun e => match snd e with
                                 | Stored index =>
                                     if bool_decide (sdk_id index = sdk)
                                     then Some index else None
                                 | Malformed => None
                                 end) entries)).
Proof.
  revert indices. induction entries as [|[name [|index]] entries IH];
    intros indices Hwf.
  - simpl. by destruct (bool_decide (sdk = "")).
  - by apply Forall_cons in Hwf as [? _].
  - apply Forall_cons in Hwf as [_ Hwf].
    change (load_files ((name, Stored index) :: entries) indices)
      with (if bool_decide (sdk_id index = "") then load_files entries indices
            else load_files entries (<[sdk_id index := index]> indices)).
    change (omap ?g ((name, Stored index) :: entries))
      with (match (if bool_decide (sdk_id index = sdk) then Some index else None) with
            | Some y => y :: omap g entries
            | None => omap g entries
            end).
    destruct (decide (sdk_id index = "")) as [Hempty|Hid].
    + rewrite (bool_decide_eq_true_2 _ Hempty), IH by done.
      destruct (decide (sdk = "")) as [->|Hsdk].
      * by rewrite !bool_decide_eq_true_2.
      * rewrite (bool_decide_eq_false_2 (sdk = "")) by done.
        rewrite (bool_decide_eq_false_2 (sdk_id index = sdk)) by congruence. done.
    + rewrite (bool_decide_eq_false_2 _ Hid), IH by done.
      destruct (decide (sdk = "")) as [->|Hsdk].
      * rewrite !(bool_decide_eq_true_2 ("" = "")) by done.
        by apply lookup_insert_ne.
      * rewrite (bool_decide_eq_false_2 (sdk = "")) by done.
        destruct (decide (sdk_id index = sdk)) as [Hsame|Hother].
        -- rewrite (bool_decide_eq_true_2 _ Hsame), last_cons, Hsame, lookup_insert_eq.
           by destruct (last _).
        -- rewrite (bool_decide_eq_false_2 _ Hother), lookup_insert_ne by done. done.
Qed.

(** The records of [records_for] are those of the files the glob selects. *)
Lemma records_for_selected (sdk : string) (entries : list (string * persisted)) :
  omap (fun e => match snd e with
                 | Stored index =>
                     if bool_decide (sdk_id index = sdk) then Some index else None
                 | Malformed => None
                 end) (List.filter (fun e => is_index_file (fst e)) entries)
  = records_for sdk entries.
Proof.
  unfold records_for. induction entries as [|[name record] entries IH]; [done|].
  cbn. destruct (is_index_file name); cbn; rewrite IH; [done|].
  by destruct record.
Qed.

End Persistence.

(** C4, as stated, fails: with a malformed record enumerated first the load
    raises and the well-formed record after it is not loaded. *)
Lemma load_aborts_on_malformed :
  load_indices ∅ (Some [("bad_index.json", Malformed);
                        ("sdk_index.json", Stored widget_index)])
  = (∅, Raised).
Proof. reflexivity. Qed.

(** C4 (amended): a load raises at the first malformed index record in
    enumeration order, and the records enumerated after it are not read.
    The well-formed records enumerated before it are loaded and stay in the
    store: under every non-empty identifier the store then holds the last
    record before the malformed one that carries this identifier, or, when
    there is none, what it held before the load; under the empty identifier
    it holds what it held before. This is the store that loading the
    records before the malformed one gives, and that load completes without
    raising. A well-formed record with an empty identifier is skipped and
    the load goes on. *)
Theorem load_stops_at_malformed (indices : Store)
    (before after : list (string * persisted)) (name : string) :
  is_index_file name = true ->
  all_well_formed before ->
  let result := load_indices indices (Some (before ++ (name, Malformed) :: after)) in
  snd result = Raised
  /\ (forall sdk,
        fst result !! sdk
        = if bool_decide (sdk = "") then indices !! sdk
          else match last (records_for sdk before) with
               | Some index => Some index
               | None => indices !! sdk
               end)
  /\ result = (fst (load_indices indices (Some before)), Raised)
  /\ snd (load_indices indices (Some before)) = Returned
  /\ forall index skipped rest,
       sdk_id index = "" ->
       is_index_file skipped = true ->
       load_indices indices (Some ((skipped, Stored index) :: rest))
       = load_indices indices (Some rest).
Proof.
  intros Hname Hwf result.
  pose proof (load_files_returns _ indices (filter_well_formed _ Hwf)) as Hret.
  assert (result = (fst (load_indices indices (Some before)), Raised)) as Hresult.
  { unfold result, load_indices. rewrite List.filter_app. simpl. rewrite Hname.
    rewrite load_files_app by done. reflexivity. }
  split; [by rewrite Hresult|]. split; [|split; [done|split; [done|]]].
  - intros sdk. rewrite Hresult. unfold load_indices, fst at 1.
    rewrite (load_files_last _ _ sdk (filter_well_formed _ Hwf)), records_for_selected.
    destruct (bool_decide (sdk = "")); [done|]. by destruct (last _).
  - intros index skipped rest Hid Hskipped. simpl. rewrite Hskipped.
    by apply load_skips_unidentified.
Qed.

Lemma load_stops_at_malformed_witness :
  let result :=
    load_indices ∅ (Some ([("sdk_index.json", Stored unnamed_index);
                           ("notes.txt", Malformed);
                           ("sdk_index.json", Stored widget_index);
                           ("blank_index.json", Stored unnamed_index)]
                          ++ ("bad_index.json", Malformed)
                          :: [("other_index.json", Stored other_index)])) in
  snd result = Raised
  /\ fst result !! "sdk" = Some widget_index
  /\ fst result !! "other" = None
  /\ fst result !! "" = None
  /\ result = ({[ "sdk" := widget_index ]}, Raised).
Proof.
  intros result.
  assert (all_well_formed [("sdk_index.json", Stored unnamed_index);
                           ("notes.txt", Malformed);
                           ("sdk_index.json", Stored widget_index);
                           ("blank_index.json", Stored unnamed_index)]) as Hwf.
  { repeat constructor; simpl; discriminate. }
  destruct (load_stops_at_malformed ∅ _
              [("other_index.json", Stored other_index)] "bad_index.json"
              eq_refl Hwf) as (Hraised & Hstore & Hresult & _).
  split; [exact Hraised|].
  split; [etransitivity; [apply (Hstore "sdk") | reflexivity]|].
  split; [etransitivity; [apply (Hstore "other") | reflexivity]|].
  split; [etransitivity; [apply (Hstore "") | reflexivity]|].
  etransitivity; [exact Hresult | reflexivity].
Defined.

#[local] Instance index_file_name_inj : Inj (=) (=) index_file_name.
Proof. intros a b E. by apply app_inv_tail_str in E. Qed.

Section RoundTrip.

(** What [save_indices] leaves in the directory. *)
Lemma save_indices_kmap (indices : Store) (output_dir : Directory) :
  save_indices indices output_dir
  = kmap index_file_name (Stored <$> indices) ∪ output_dir.
Proof.
  unfold save_indices.
  apply (map_fold_weak_ind (fun dir (m : Store) =>
           dir = kmap index_file_name (Stored <$> m) ∪ output_dir)).
  - rewrite fmap_empty, kmap_empty. symmetry. apply (left_id_L _ _).
  - intros sdk index m dir _ ->.
    rewrite fmap_insert, (kmap_insert index_file_name). apply insert_union_l.
Qed.

Lemma infixb_single (c : ascii) (l : list ascii) :
  PyStr.infixb [c] l = true <-> In c l.
Proof.
  induction l as [|d l IH]; simpl.
  - split; [done | intros []].
  - rewrite orb_true_iff, andb_true_iff, bool_decide_eq_true, IH.
    split; [intros [[-> _]|?]; auto | intros [->|?]; auto].
Qed.

Lemma index_file_name_is_index_file (sdk : string) :
  PyStr.contains "/" sdk = false -> is_index_file (index_file_name sdk) = true.
Proof.
  intros Hsep. unfold is_index_file. apply andb_true_iff. split.
  - apply endswith_spec. exists (PyStr.chars sdk). apply chars_app.
  - apply negb_true_iff, not_true_iff_false. intros Hin.
    apply not_true_iff_false in Hsep. apply Hsep.
    unfold PyStr.contains in *. apply infixb_single. apply infixb_single in Hin.
    unfold index_file_name in Hin. rewrite chars_app in Hin.
    apply in_app_or in Hin as [Hin|Hin]; [done|].
    simpl in Hin. repeat (destruct Hin as [Hin|Hin]; [discriminate|]). done.
Qed.

(** Loading well-formed, identified records installs each under its
    identifier, in enumeration order. *)
Lemma load_files_identified (pairs : list (string * SdkIndex)) (indices : Store) :
  Forall (fun p => sdk_id (snd p) = fst p /\ fst p <> "") pairs ->
  load_files (prod_map index_file_name Stored <$> pairs) indices
  = (list_to_map (reverse pairs) ∪ indices, Returned).
Proof.
  revert indices. induction pairs as [|[k index] pairs IH]; intros indices Hid.
  - simpl. f_equal. symmetry. apply (left_id_L _ _).
  - apply Forall_cons in Hid as [[Hk Hne] Hid]. simpl in Hk, Hne. csimpl.
    rewrite bool_decide_eq_false_2 by congruence.
    rewrite IH by done. rewrite Hk. f_equal.
    rewrite reverse_cons, list_to_map_app. simpl.
    rewrite insert_empty, <- (assoc_L (∪)). f_equal.
    by rewrite insert_union_singleton_l.
Qed.

End RoundTrip.

(** C6, as stated, fails: an index built under the empty identifier is
    saved, and loading the directory into a fresh store yields no index. *)
Lemma roundtrip_loses_empty_identifier :
  ({[ "" := unnamed_index ]} : Store) !! "" = Some unnamed_index /\
  load_indices ∅
    (Some (map_to_list (save_indices {[ "" := unnamed_index ]} ∅)))
  = (∅, Returned).
Proof. split; [apply lookup_singleton_eq | by vm_compute]. Qed.

(** Saved into an empty directory, the store comes back as it was. *)
Lemma save_load_fresh_directory (indices : Store) (entries : list (string * persisted)) :
  well_identified indices ->
  enumerates entries (save_indices indices ∅) ->
  load_indices ∅ (Some entries) = (indices, Returned).
Proof.
  intros Hid Henum. unfold enumerates in Henum.
  rewrite save_indices_kmap, (right_id_L ∅ (∪)) in Henum.
  rewrite (map_to_list_kmap index_file_name), map_to_list_fmap,
    <- list_fmap_compose in Henum.
  change (prod_map index_file_name id ∘ prod_map id Stored)
    with (prod_map index_file_name Stored : string * SdkIndex -> _) in Henum.
  assert (Forall (fun p => sdk_id (snd p) = fst p /\ fst p <> ""
                           /\ PyStr.contains "/" (fst p) = false)
            (map_to_list indices)) as Hall.
  { apply Forall_forall. intros [k index] Hin%elem_of_map_to_list.
    apply (Hid k index Hin). }
  assert (Forall (fun e => is_index_file (fst e) = true) entries) as Hfiles.
  { rewrite Henum. apply Forall_fmap. eapply Forall_impl; [exact Hall|].
    intros [k index] (_ & _ & Hsep). simpl. by apply index_file_name_is_index_file. }
  unfold load_indices.
  assert (List.filter (fun e => is_index_file (fst e)) entries = entries) as ->.
  { clear -Hfiles. induction Hfiles as [|e l He _ IH]; [done|].
    simpl. by rewrite He, IH. }
  apply Permutation_map_inv in Henum as (pairs & -> & Hperm).
  rewrite load_files_identified.
  - rewrite (right_id_L ∅ (∪)). f_equal.
    transitivity (list_to_map (map_to_list indices) : Store);
      [|apply list_to_map_to_list].
    apply list_to_map_proper.
    + rewrite reverse_Permutation, <- Hperm. apply NoDup_fst_map_to_list.
    + by rewrite reverse_Permutation.
  - rewrite <- Hperm. eapply Forall_impl; [exact Hall|].
    by intros [k index] (? & ? & _).
Qed.

Section RoundTripAnyDirectory.

Lemma load_files_named_returns (entries : list (string * persisted)) (indices : Store) :
  named_records entries -> snd (load_files entries indices) = Returned.
Proof.
  intros Hnamed. apply load_files_returns.
  eapply Forall_impl; [exact Hnamed|]. intros [name [|index]]; simpl; [done|discriminate].
Qed.

Lemma load_files_other (entries : list (string * persisted)) (indices : Store) (k : string) :
  named_records entries ->
  index_file_name k ∉ entries.*1 ->
  fst (load_files entries indices) !! k = indices !! k.
Proof.
  revert indices. induction entries as [|[name [|index]] entries IH];
    intros indices Hnamed Hfresh; [done|..].
  - by apply Forall_cons in Hnamed as [[] _].
  - apply Forall_cons in Hnamed as [Hname Hnamed]. simpl in Hname.
    rewrite fmap_cons in Hfresh. apply not_elem_of_cons in Hfresh as [Hne Hfresh].
    simpl. case_bool_decide; rewrite IH by done; [done|].
    apply lookup_insert_ne. intros E. apply Hne. simpl. by rewrite Hname, E.
Qed.

Lemma load_files_lookup (entries : list (string * persisted)) (indices : Store)
    (k : string) (index : SdkIndex) :
  named_records entries ->
  NoDup entries.*1 ->
  k <> "" ->
  (index_file_name k, Stored index) ∈ entries ->
  fst (load_files entries indices) !! k = Some index.
Proof.
  revert indices. induction entries as [|[name [|index']] entries IH];
    intros indices Hnamed Hnodup Hk Hin.
  - by apply elem_of_nil in Hin.
  - by apply Forall_cons in Hnamed as [[] _].
  - apply Forall_cons in Hnamed as [Hname Hnamed]. simpl in Hname.
    rewrite fmap_cons in Hnodup. apply NoDup_cons in Hnodup as [Hfresh Hnodup].
    apply elem_of_cons in Hin as [Hhead|Hin].
    + injection Hhead as Hnames Hindex. subst index'. rewrite Hname in Hnames.
      apply index_file_name_inj in Hnames. subst k.
      simpl. rewrite bool_decide_eq_false_2 by done.
      rewrite load_files_other; [apply lookup_insert_eq | done |].
      simpl in Hfresh. by rewrite <- Hname.
    + simpl. case_bool_decide; by apply IH.
Qed.

End RoundTripAnyDirectory.

Lemma filter_fst_elem_of (p : string * persisted -> bool)
    (entries : list (string * persisted)) (name : string) :
  name ∈ (List.filter p entries).*1 -> name ∈ entries.*1.
Proof.
  induction entries as [|e entries IH]; simpl; [done|].
  destruct (p e); rewrite ?fmap_cons, ?elem_of_cons; intuition.
Qed.

Lemma filter_fst_NoDup (p : string * persisted -> bool)
    (entries : list (string * persisted)) :
  NoDup entries.*1 -> NoDup (List.filter p entries).*1.
Proof.
  induction entries as [|e entries IH]; [done|].
  change ((e :: entries).*1) with (e.1 :: entries.*1).
  intros [Hfresh Hnodup]%NoDup_cons. simpl.
  destruct (p e); [|by apply IH].
  change ((e :: List.filter p entries).*1) with (e.1 :: (List.filter p entries).*1).
  apply NoDup_cons. split; [|by apply IH].
  intros Hin. by apply Hfresh, (filter_fst_elem_of p).
Qed.

(** C6 (amended): take a store in which every index sits under its own
    identifier, a non-empty file-name component, and a directory whose
    index records are well formed and named after the identifier they
    carry. Saving the store into the directory and loading the directory,
    in whatever order it is enumerated, into a fresh store returns without
    raising and yields, for every identifier of the saved store, the index
    that was saved; when the directory was empty the loaded store is the
    saved one. *)
Theorem save_load_roundtrip (indices : Store) (output_dir : Directory)
    (entries : list (string * persisted)) :
  well_identified indices ->
  consistent_directory output_dir ->
  enumerates entries (save_indices indices output_dir) ->
  snd (load_indices ∅ (Some entries)) = Returned
  /\ (forall k index, indices !! k = Some index ->
        fst (load_indices ∅ (Some entries)) !! k = Some index)
  /\ (output_dir = ∅ -> fst (load_indices ∅ (Some entries)) = indices).
Proof.
  intros Hid Hdir Henum.
  assert (forall name record, (name, record) ∈ entries <->
            (kmap index_file_name (Stored <$> indices) ∪ output_dir) !! name
            = Some record) as Hentries.
  { intros name record. unfold enumerates in Henum.
    rewrite Henum, save_indices_kmap. apply elem_of_map_to_list. }
  assert (named_records (List.filter (fun e => is_index_file (fst e)) entries)) as Hnamed.
  { apply List.Forall_forall. intros [name record] [Hin Hidx]%filter_In.
    apply list_elem_of_In, Hentries, lookup_union_Some_raw in Hin as [Hin|[_ Hin]].
    - apply lookup_kmap_Some in Hin as (k & -> & Hk); [|apply _].
      apply lookup_fmap_Some in Hk as (index & <- & Hk).
      simpl. by destruct (Hid k index Hk) as [-> _].
    - simpl in *. specialize (Hdir name record Hin Hidx). by destruct record. }
  assert (NoDup (List.filter (fun e => is_index_file (fst e)) entries).*1) as Hnodup.
  { apply filter_fst_NoDup. unfold enumerates in Henum. rewrite Henum.
    apply NoDup_fst_map_to_list. }
  split; [|split].
  - by apply load_files_named_returns.
  - intros k index Hk. destruct (Hid k index Hk) as (_ & Hne & Hsep).
    apply load_files_lookup; [done..|].
    apply list_elem_of_In, filter_In. split.
    + apply list_elem_of_In, Hentries, lookup_union_Some_l.
      rewrite (lookup_kmap index_file_name), lookup_fmap. by rewrite Hk.
    + by apply index_file_name_is_index_file.
  - intros ->. by rewrite (save_load_fresh_directory indices entries).
Qed.

Lemma save_load_roundtrip_witness :
  fst (load_indices ∅
         (Some (map_to_list
                  (save_indices {[ "sdk" := widget_index ]}
                     {[ "other_index.json" := Stored other_index ]}))))
  !! "sdk" = Some widget_index.
Proof.
  refine (proj1 (proj2 (save_load_roundtrip {[ "sdk" := widget_index ]}
            {[ "other_index.json" := Stored other_index ]} _ _ _ _)) "sdk" widget_index _).
  - apply map_Forall_singleton.
    split; [reflexivity | split; [discriminate | reflexivity]].
  - apply map_Forall_singleton. intros _. reflexivity.
  - unfold enumerates. reflexivity.
  - reflexivity.
Defined.

(** ** Searching one file *)

Section SearchFile.
Context `{ReEngine}.

(** From a list still below a cap of at least 1, the loop never goes
    beyond the cap. *)
Lemma search_lines_bound (lines : list string) (line_num : nat) (matches : list string)
    (pat : pattern) (cs : bool) (max_results : Z) :
  (1 <= max_results)%Z ->
  (Z.of_nat (length matches) < max_results)%Z ->
  (Z.of_nat (length (search_lines lines line_num matches pat cs max_results))
   <= max_results)%Z.
Proof.
  intros Hmax. revert line_num matches.
  induction lines as [|line rest IH]; intros line_num matches Hlen; simpl.
  - lia.
  - destruct (_line_matches line pat cs); [|by apply IH].
    destruct (Z.leb_spec max_results
                (Z.of_nat (length (matches ++ [match_entry line_num line])))) as [Hge|Hlt].
    + rewrite length_app in *. simpl in *. lia.
    + by apply IH.
Qed.

Lemma _search_file_bound (doc : document) (pat : pattern) (cs : bool) (max_results : Z) :
  (1 <= max_results)%Z ->
  (Z.of_nat (length (_search_file doc pat cs max_results)) <= max_results)%Z.
Proof.
  intros Hmax. destruct doc as [content|e]; simpl; [|lia].
  apply search_lines_bound; simpl; lia.
Qed.

(** Once the cap is reached the lines that follow are not examined. *)
Lemma search_lines_stops (lines later : list string) (line_num : nat)
    (matches : list string) (pat : pattern) (cs : bool) (max_results : Z) :
  (Z.of_nat (length matches) < max_results)%Z ->
  (max_results
   <= Z.of_nat (length (search_lines lines line_num matches pat cs max_results)))%Z ->
  search_lines (lines ++ later) line_num matches pat cs max_results
  = search_lines lines line_num matches pat cs max_results.
Proof.
  revert line_num matches.
  induction lines as [|line rest IH]; intros line_num matches Hlen Hcap; simpl in *.
  - lia.
  - destruct (_line_matches line pat cs); [|by apply IH].
    destruct (Z.leb_spec max_results
                (Z.of_nat (length (matches ++ [match_entry line_num line])))) as [Hge|Hlt].
    + done.
    + by apply IH.
Qed.

(** Every list of matches [search_code] returns under a cap of at least 1
    stays within the cap. *)
Lemma search_code_bound (indices : Store) (data_dir : DataDir) (sdk query : string)
    (options : SearchOptions) (file : string) (matches : list string) :
  (1 <= max_results_per_file options)%Z ->
  search_code indices data_dir sdk query options !! file = Some matches ->
  (Z.of_nat (length matches) <= max_results_per_file options)%Z.
Proof.
  intros Hmax. unfold search_code.
  destruct (get_index indices sdk) as [index|]; [|by rewrite lookup_empty].
  destruct (if regex options then _ else _) as [pat|].
  2:{ unfold invalid_regex. intros [_ <-]%lookup_singleton_Some. simpl. lia. }
  destruct (data_dir !! sdk) as [sdk_data_dir|]; [|by rewrite lookup_empty].
  generalize (ix_files index). intros files.
  assert (forall results,
    (forall ms, results !! file = Some ms ->
                (Z.of_nat (length ms) <= max_results_per_file options)%Z) ->
    forall ms,
      foldl (search_one_file sdk_data_dir pat (case_sensitive options)
               (max_results_per_file options)) results files !! file = Some ms ->
      (Z.of_nat (length ms) <= max_results_per_file options)%Z) as Hfold.
  { induction files as [|fi files IH]; intros results Hres ms; simpl; [by apply Hres|].
    apply IH. intros ms'. unfold search_one_file.
    destruct (saved_as fi) as [saved_name|]; [|by apply Hres].
    case_bool_decide; [by apply Hres|].
    destruct (sdk_data_dir !! saved_name) as [doc|]; [|by apply Hres].
    pose proof (_search_file_bound doc pat (case_sensitive options) _ Hmax) as Hb.
    destruct (_search_file doc pat (case_sensitive options)
                (max_results_per_file options)) as [|m ms0] eqn:E; [by apply Hres|].
    destruct (decide (saved_name = file)) as [->|Hne].
    - rewrite lookup_insert_eq. by intros [= <-].
    - rewrite lookup_insert_ne by done. by apply Hres. }
  apply Hfold. intros ms. by rewrite lookup_empty.
Qed.

End SearchFile.

(** C9, the code with a cap of 0: the file that holds a matching line
    comes back with one match. *)
Theorem zero_cap_returns_a_match :
  search_code (H := fragment_re) widget_store widget_data "sdk" "return"
    {| case_sensitive := false; max_results_per_file := 0; regex := false |}
  !! "sdk_widget.md"
  = Some ["Line 9: return 1"].
Proof. by vm_compute. Qed.

(** ** Searching all SDKs *)

Section SearchAll.
Context `{ReEngine}.

Lemma invalid_regex_nonempty : invalid_regex <> ∅.
Proof. apply insert_non_empty. Qed.

(** In regex mode a query that does not compile yields the error result
    for every SDK that has an index, whatever the data directory holds. *)
Lemma search_code_invalid (indices : Store) (data_dir : DataDir) (sdk query : string)
    (options : SearchOptions) (index : SdkIndex) :
  regex options = true ->
  re_compile query (negb (case_sensitive options)) = None ->
  indices !! sdk = Some index ->
  search_code indices data_dir sdk query options = invalid_regex.
Proof.
  intros Hregex Hcompile Hindex. unfold search_code, get_index.
  by rewrite Hindex, Hregex, Hcompile.
Qed.

End SearchAll.

(** C10: in regex mode, a query the engine rejects makes [search_all_sdks]
    map every SDK identifier of the store, and nothing else, to the
    single-entry error result; the data directory plays no part. *)
Theorem invalid_regex_all_sdks `{ReEngine} (indices : Store) (data_dir : DataDir)
    (query : string) (options : SearchOptions) :
  regex options = true ->
  re_compile query (negb (case_sensitive options)) = None ->
  search_all_sdks indices data_dir query options
  = (fun _ => {[ "error" := ["Invalid regex pattern"] ]}) <$> indices.
Proof.
  intros Hregex Hcompile. unfold search_all_sdks.
  rewrite map_fold_foldr.
  assert (forall l : list (string * SdkIndex),
    (forall k index, (k, index) ∈ l -> indices !! k = Some index) ->
    foldr (fun kv (all_results : gmap string (gmap string (list string))) =>
             let results := search_code indices data_dir kv.1 query options in
             if bool_decide (results = ∅) then all_results
             else <[kv.1 := results]> all_results) ∅ l
    = list_to_map (prod_map id (fun _ => invalid_regex) <$> l)) as Hfold.
  { induction l as [|[k index] l IH]; intros Hin; [done|]. simpl.
    rewrite (search_code_invalid indices data_dir k query options index)
      by (auto; apply Hin; left).
    rewrite bool_decide_eq_false_2 by apply invalid_regex_nonempty.
    f_equal. apply IH. intros k' index' Hin'. apply Hin. by right. }
  etransitivity; [|etransitivity].
  2:{ apply Hfold. intros k index. apply elem_of_map_to_list. }
  - apply foldr_ext; [|done..]. by intros [k index] acc.
  - rewrite <- map_to_list_fmap. apply list_to_map_to_list.
Qed.

Lemma invalid_regex_all_sdks_witness :
  search_all_sdks (H := fragment_re) widget_store widget_data "("
    {| case_sensitive := false; max_results_per_file := 10; regex := true |}
  = {[ "sdk" := {[ "error" := ["Invalid regex pattern"] ]} ]}.
Proof.
  rewrite (invalid_regex_all_sdks (H := fragment_re) widget_store widget_data "(")
    by reflexivity.
  unfold widget_store. by rewrite map_fmap_singleton.
Defined.

(** ** Examples for a topic *)

Section Examples.
Context `{ReEngine}.

Lemma extend_results_lookup (all_results results : gmap string (list string))
    (file : string) :
  extend_results all_results results !! file
  = match results !! file with
    | None => all_results !! file
    | Some matches => Some (default [] (all_results !! file) ++ matches)
    end.
Proof.
  unfold extend_results. revert file.
  apply (map_fold_weak_ind (fun acc (m : gmap string (list string)) =>
    forall file, acc !! file
      = match m !! file with
        | None => all_results !! file
        | Some matches => Some (default [] (all_results !! file) ++ matches)
        end)).
  - intros file. by rewrite lookup_empty.
  - intros f matches m acc Hfresh IH file.
    destruct (decide (f = file)) as [->|Hne].
    + rewrite !lookup_insert_eq. by rewrite IH, Hfresh.
    + rewrite !lookup_insert_ne by done. apply IH.
Qed.

Lemma merge_lookup (per_query : list (gmap string (list string)))
    (all_results : gmap string (list string)) (file : string) :
  foldl extend_results all_results per_query !! file
  = match omap (fun results => results !! file) per_query with
    | [] => all_results !! file
    | found => Some (default [] (all_results !! file) ++ concat found)
    end.
Proof.
  revert all_results. induction per_query as [|r per_query IH]; intros all_results.
  - done.
  - change (foldl extend_results all_results (r :: per_query))
      with (foldl extend_results (extend_results all_results r) per_query).
    change (omap (fun results => results !! file) (r :: per_query))
      with (match r !! file with
            | Some matches => matches :: omap (fun results => results !! file) per_query
            | None => omap (fun results => results !! file) per_query
            end).
    rewrite IH, extend_results_lookup.
    destruct (r !! file) as [matches|]; [|done].
    destruct (omap (fun results => results !! file) per_query) as [|m found]; simpl.
    + by rewrite (right_id_L [] (++)).
    + by rewrite <- (assoc_L (++)).
Qed.

End Examples.

(** C5, as stated, fails: a line that two of the five patterns match is
    listed twice for its file. *)
Lemma find_examples_repeats_a_line :
  find_examples (H := fragment_re) widget_store widget_data "sdk" "run"
  !! "sdk_widget.md"
  = Some ["Line 8: def run(self):"; "Line 8: def run(self):"].
Proof. by vm_compute. Qed.

(** C5 (amended): [find_examples] runs the five pattern queries through
    [search_code] in regex mode with a cap of 5, so that no query brings
    more than 5 matches for a file; the list it returns for a file is the
    concatenation, in pattern order, of the lists of the queries that have
    the file, a line matched by several patterns being listed once for
    each. *)
Theorem find_examples_concatenates `{ReEngine} (indices : Store) (data_dir : DataDir)
    (sdk topic : string) :
  let per_query :=
    (fun pat => search_code indices data_dir sdk pat
                  {| case_sensitive := false; max_results_per_file := 5; regex := true |})
    <$> [ "def.*" +:+ topic; "class.*" +:+ topic; topic +:+ "\s*\(";
          "@" +:+ topic; "self\." +:+ topic ] in
  (forall file, find_examples indices data_dir sdk topic !! file
                = merged_matches per_query file)
  /\ Forall (map_Forall (fun _ matches => length matches <= 5)) per_query.
Proof.
  split.
  - intros file. unfold find_examples, merged_matches.
    change (example_patterns topic)
      with [ "def.*" +:+ topic; "class.*" +:+ topic; topic +:+ "\s*\(";
             "@" +:+ topic; "self\." +:+ topic ].
    rewrite <- (foldl_fmap extend_results ∅ _
                 (fun pat => search_code indices data_dir sdk pat example_options)).
    rewrite merge_lookup, lookup_empty. reflexivity.
  - apply Forall_fmap, Forall_forall. intros pat _ file matches Hlookup. simpl.
    apply search_code_bound in Hlookup; simpl in *; lia.
Qed.

(** ** The source of a type *)

Section TypeSource.

Lemma find_class_start_first (needle : string) (before following : list string)
    (decl : string) :
  Forall (fun line => PyStr.contains needle line = false) before ->
  PyStr.contains needle decl = true ->
  find_class_start needle (before ++ decl :: following) = Some (decl, following).
Proof.
  intros Hbefore Hdecl. induction Hbefore as [|line before Hline _ IH]; simpl.
  - by rewrite Hdecl.
  - by rewrite Hline.
Qed.

Lemma lstrip_chars_nil (l : list ascii) :
  PyStr.lstrip_chars l = [] <-> forallb PyStr.isspace l = true.
Proof.
  induction l as [|c l IH]; simpl; [done|].
  destruct (PyStr.isspace c); simpl; [done|]. split; discriminate.
Qed.

Lemma lstrip_chars_stripped (l : list ascii) :
  forallb PyStr.isspace (PyStr.lstrip_chars l) = true -> PyStr.lstrip_chars l = [].
Proof.
  induction l as [|c l IH]; simpl; [done|].
  destruct (PyStr.isspace c) eqn:Hc; [done|]. simpl. by rewrite Hc.
Qed.

Lemma forallb_rev {A} (f : A -> bool) (l : list A) :
  forallb f (rev l) = forallb f l.
Proof.
  induction l as [|x l IH]; [done|]. simpl.
  rewrite forallb_app, IH. simpl. rewrite andb_true_r. apply andb_comm.
Qed.

(** [line.strip() == ""] holds exactly for a line of white space. *)
Lemma strip_blank (line : string) :
  bool_decide (PyStr.strip line = "") = is_blank line.
Proof.
  unfold PyStr.strip, PyStr.lstrip, PyStr.rstrip, is_blank. rewrite chars_str.
  set (tail := PyStr.lstrip_chars (rev (PyStr.chars line))).
  destruct (forallb PyStr.isspace (PyStr.chars line)) eqn:Hblank.
  - apply bool_decide_eq_true_2.
    assert (tail = []) as ->; [|done].
    apply lstrip_chars_nil. by rewrite forallb_rev.
  - apply bool_decide_eq_false_2. intros Hempty.
    apply (f_equal list_ascii_of_string) in Hempty. rewrite chars_str in Hempty.
    simpl in Hempty. apply lstrip_chars_nil in Hempty. rewrite forallb_rev in Hempty.
    apply lstrip_chars_stripped, lstrip_chars_nil in Hempty.
    rewrite forallb_rev in Hempty. congruence.
Qed.

Lemma length_chars (s : string) : String.length s = length (PyStr.chars s).
Proof. induction s as [|c s IH]; simpl; [done | by rewrite IH]. Qed.

Lemma lstrip_chars_length (l : list ascii) :
  length l - length (PyStr.lstrip_chars l) = leading_whitespace l
  /\ length (PyStr.lstrip_chars l) <= length l.
Proof.
  induction l as [|c l [IH Hle]]; simpl; [done|].
  destruct (PyStr.isspace c); simpl; lia.
Qed.

(** [len(line) - len(line.lstrip())] counts the white space at the head of
    the line. *)
Lemma indent_indentation (line : string) : indent line = indentation line.
Proof.
  unfold indent, indentation, PyStr.len, PyStr.lstrip.
  rewrite !length_chars, chars_str. apply lstrip_chars_length.
Qed.

(** The loop adds the block below the declaration to the lines it holds. *)
Lemma class_body_block (following result_lines : list string) :
  class_body following 0 result_lines = result_lines ++ block_below following.
Proof.
  revert result_lines. induction following as [|line rest IH]; intros result_lines; simpl.
  - by rewrite (right_id_L [] (++)).
  - rewrite strip_blank, indent_indentation. destruct (is_blank line).
    + by rewrite IH, <- (assoc_L (++)).
    + simpl. rewrite andb_true_r.
      destruct (indentation line) as [|n]; simpl.
      * by rewrite (right_id_L [] (++)).
      * by rewrite IH, <- (assoc_L (++)).
Qed.

(** The block is the longest run of blank or indented lines at the head
    of the lines that follow the declaration. *)
Lemma block_below_spec (following : list string) :
  exists tail,
    following = block_below following ++ tail
    /\ Forall (fun line => is_blank line = true \/ 0 < indentation line)
         (block_below following)
    /\ match tail with
       | [] => True
       | line :: _ => is_blank line = false /\ indentation line <= 0
       end.
Proof.
  induction following as [|line rest (tail & Hsplit & Hblock & Htail)]; simpl.
  - by exists [].
  - destruct (is_blank line) eqn:Hblank.
    + exists tail. split; [simpl; by f_equal|]. split; [|done].
      constructor; [by left | done].
    + destruct (0 <? indentation line) eqn:Hind.
      * exists tail. split; [simpl; by f_equal|]. split; [|done].
        constructor; [|done]. right. by apply Nat.ltb_lt.
      * exists (line :: rest). split; [done|]. split; [constructor|].
        split; [done|]. by apply Nat.ltb_ge in Hind.
Qed.

End TypeSource.

Example indentation_counts_leading_space :
  indentation "    def run(self):" = 4 /\ indent "    def run(self):" = 4
  /\ is_blank "   " = true /\ is_blank "  x" = false.
Proof. repeat split; reflexivity. Qed.

(** C8, as stated, fails: in a file that declares [WidgetFactory] above
    [Widget], both at indentation 0, the source returned for [Widget], which
    the index places at line 5, is the block of [WidgetFactory], the first
    line that contains the text [class Widget]. *)
Lemma type_source_takes_first_textual_hit :
  find_class factory_store "sdk" "Widget"
  = Some {| cl_file := "sdk_factory.md"; cl_line := 5;
            cl_methods := [{| m_name := "run"; m_line := 6 |}] |}
  /\ get_class_source factory_store factory_data "sdk" "Widget"
     = Some (PyStr.join (String PyStr.LF "")
               ["class WidgetFactory:"; "    def make(self):";
                "        return Widget()"; ""])
  /\ get_class_source factory_store factory_data "sdk" "Widget"
     <> Some (PyStr.join (String PyStr.LF "")
                ["class Widget:"; "    def run(self):"; "        return 1"]).
Proof.
  assert (get_class_source factory_store factory_data "sdk" "Widget"
          = Some (PyStr.join (String PyStr.LF "")
                    ["class WidgetFactory:"; "    def make(self):";
                     "        return Widget()"; ""])) as Hsource by reflexivity.
  split; [reflexivity|]. split; [exact Hsource|]. rewrite Hsource. discriminate.
Qed.

(** C8 (amended): when the first line of the document that contains the
    text ["class <name>"] is the declaration of the type and stands at
    indentation 0, [get_class_source] returns that line followed by the
    block below it, the lines joined by line feeds. The block is the run of
    lines after the declaration that are blank or indented by more than 0;
    it ends before the first non-blank line at indentation 0, or with the
    document. *)
Theorem type_source_is_block (indices : Store) (data_dir : DataDir)
    (sdk class_name : string) (class_info : ClassLocation)
    (docs : gmap string document) (content decl : string)
    (before following : list string) :
  find_class indices sdk class_name = Some class_info ->
  cl_file class_info <> "" ->
  data_dir !! sdk = Some docs ->
  docs !! cl_file class_info = Some (Text content) ->
  PyStr.split PyStr.LF content = before ++ decl :: following ->
  Forall (fun line => PyStr.contains ("class " +:+ class_name) line = false) before ->
  PyStr.contains ("class " +:+ class_name) decl = true ->
  indentation decl = 0 ->
  get_class_source indices data_dir sdk class_name
  = Some (PyStr.join (String PyStr.LF "") (decl :: block_below following))
  /\ exists tail,
       following = block_below following ++ tail
       /\ Forall (fun line => is_blank line = true \/ 0 < indentation line)
            (block_below following)
       /\ match tail with
          | [] => True
          | line :: _ => is_blank line = false /\ indentation line <= 0
          end.
Proof.
  intros Hclass Hfile Hdir Hdoc Hlines Hbefore Hdecl Hindent.
  split; [|apply block_below_spec].
  unfold get_class_source. rewrite Hclass.
  rewrite bool_decide_eq_false_2 by done.
  rewrite Hdir. simpl. rewrite Hdoc.
  unfold _extract_class_from_content. rewrite Hlines.
  rewrite (find_class_start_first _ _ _ _ Hbefore Hdecl).
  by rewrite indent_indentation, Hindent, class_body_block.
Qed.

Lemma type_source_is_block_witness :
  get_class_source widget_store widget_data "sdk" "Widget"
  = Some (PyStr.join (String PyStr.LF "")
            (["class Widget:"; "    # a widget"; ""; "    # run it";
              "    def run(self):"; "        return 1"]
             ++ replicate 13 "")).
Proof.
  etransitivity.
  - refine (proj1 (type_source_is_block widget_store widget_data "sdk" "Widget"
              {| cl_file := "sdk_widget.md"; cl_line := 1;
                 cl_methods := [{| m_name := "run"; m_line := 5 |}] |}
              {[ "sdk_widget.md" := widget_doc ]}
              _ "class Widget:" ["# widget.py"; ""; "```python"]
              (["    # a widget"; ""; "    # run it"; "    def run(self):";
                "        return 1"]
               ++ replicate 13 ""
               ++ ["async def helper():"; "    return 2"; "```"])
              _ _ _ _ _ _ _ _)).
    + reflexivity.
    + discriminate.
    + reflexivity.
    + reflexivity.
    + reflexivity.
    + repeat constructor.
    + reflexivity.
    + reflexivity.
  - reflexivity.
Defined.

(** * Further properties of the code *)

(** ** The structural extractor, continued *)

Lemma walk_queue_sound (fuel : nat) (todo : list node) (n : node) :
  In n (walk_queue fuel todo) -> exists tree, In tree todo /\ descendant tree n.
Proof.
  revert todo. induction fuel as [|fuel IH]; intros todo Hin.
  - by destruct todo.
  - destruct todo as [|t rest]; [done|]. simpl in Hin. destruct Hin as [<-|Hin].
    + exists t. split; [by left | constructor].
    + apply IH in Hin as (tree & Htree & Hdesc).
      apply in_app_or in Htree as [Htree|Htree].
      * exists tree. split; [by right | done].
      * exists t. split; [by left|]. by apply (descendant_child t tree n).
Qed.

(** [walk] yields the nodes of the tree and nothing else. *)
Lemma walk_spec (tree n : node) : In n (walk tree) <-> descendant tree n.
Proof.
  split; [|apply walk_complete].
  intros (t & [<-|[]] & Hdesc)%walk_queue_sound. done.
Qed.

(** X1: a class is reported exactly for each class definition of the tree,
    at whatever depth, with its line and the names of its bases; its methods
    are exactly the synchronous function definitions that stand directly in
    its body. *)
Theorem classes_at_any_depth (tree : node) :
  (forall info : ClassInfo,
     In info (_extract_classes tree) <->
     exists name lineno bases body,
       descendant tree (ClassDef name lineno bases body)
       /\ info = {| c_name := name; c_line := lineno;
                    c_methods := class_methods body;
                    c_bases := List.map _get_name bases |})
  /\ (forall (body : list node) (method : MethodInfo),
        In method (class_methods body) <->
        exists inner, In (FunctionDef (m_name method) (m_line method) inner) body).
Proof.
  split.
  - intros info. unfold _extract_classes. rewrite in_flat_map. split.
    + intros (n & Hn%walk_spec & Hinfo).
      destruct n; simpl in Hinfo; try done. destruct Hinfo as [<-|[]]. eauto 10.
    + intros (name & lineno & bases & body & Hdesc%walk_spec & ->).
      exists (ClassDef name lineno bases body). split; [done | by left].
  - intros body method. unfold class_methods. rewrite in_flat_map. split.
    + intros (item & Hitem & Hmethod).
      destruct item; simpl in Hmethod; try done. destruct Hmethod as [<-|[]]. eauto.
    + intros (inner & Hin). eexists. split; [exact Hin|]. left. by destruct method.
Qed.

(** X2: the imports are exactly the names of the [import] statements of the
    tree, at whatever depth, and, for each name of a [from ... import]
    statement, the module, a dot and the name; a statement without a module
    gives the dot and the name alone. *)
Theorem imports_at_any_depth (tree : node) (ref : string) :
  In ref (_extract_imports tree) <->
  (exists names, descendant tree (Import_ names) /\ In ref names)
  \/ (exists module names name,
        descendant tree (ImportFrom module names) /\ In name names
        /\ ref = match module with
                 | Some m => m +:+ "." +:+ name
                 | None => "." +:+ name
                 end).
Proof.
  unfold _extract_imports. rewrite in_flat_map. split.
  - intros (n & Hn%walk_spec & Href). destruct n; simpl in Href; try done.
    + left. eauto.
    + right. apply in_map_iff in Href as (name & <- & Hname).
      exists module, names, name. by destruct module.
  - intros [(names & Hdesc%walk_spec & Href)
           |(module & names & name & Hdesc%walk_spec & Hname & ->)].
    + by exists (Import_ names).
    + exists (ImportFrom module names). split; [done|]. simpl.
      apply in_map_iff. exists name. by destruct module.
Qed.



(** ** Display names, continued *)





(** ** The index builder, continued *)

(** The index a call returns is the one the loop over the selected files
    builds from the initial dictionary. *)
Lemma index_sdk_returned `{FnMatch} (indices : Store) (sdk : string)
    (source_path : SourceTree) (config : Config) (index : SdkIndex) :
  snd (index_sdk indices sdk source_path config) = Some index ->
  exists all_files,
    glob_all source_path (default ["**/*.py"] (cfg_file_patterns config)) = Some all_files
    /\ index = foldl (fun index f =>
                        if _should_exclude f (default [] (cfg_exclude_patterns config))
                        then index else index_file sdk index f)
                 (initial_index sdk config) (sorted_set all_files)
    /\ fst (index_sdk indices sdk source_path config) = <[sdk := index]> indices.
Proof.
  unfold index_sdk. destruct (glob_all source_path _) as [all_files|]; [|done].
  simpl. intros [= <-]. by exists all_files.
Qed.

Lemma index_sdk_files `{FnMatch} (indices : Store) (sdk : string)
    (source_path : SourceTree) (config : Config) (index : SdkIndex) :
  snd (index_sdk indices sdk source_path config) = Some index ->
  exists all_files,
    glob_all source_path (default ["**/*.py"] (cfg_file_patterns config)) = Some all_files
    /\ ix_files index
       = omap (recorded_file sdk (default [] (cfg_exclude_patterns config)))
           (sorted_set all_files).
Proof.
  intros (all_files & Hglob & -> & _)%index_sdk_returned.
  exists all_files. split; [done|]. by rewrite index_fold_files.
Qed.

Lemma index_sdk_maps `{FnMatch} (indices : Store) (sdk : string)
    (source_path : SourceTree) (config : Config) (index : SdkIndex) :
  snd (index_sdk indices sdk source_path config) = Some index ->
  maps_follow_files index.
Proof.
  intros (all_files & Hglob & -> & _)%index_sdk_returned.
  by apply index_fold_maps.
Qed.

Lemma listed_functions_elem_of (files : list FileInfo) (p : string * FunctionInfo) :
  p ∈ listed_functions files <->
  exists fi, fi ∈ files /\ fst p = default "" (saved_as fi) /\ snd p ∈ fi_functions fi.
Proof.
  unfold listed_functions. rewrite list_elem_of_In, in_flat_map. split.
  - intros (fi & Hfi & (func & <- & Hfunc)%in_map_iff).
    exists fi. by rewrite !list_elem_of_In.
  - intros (fi & Hfi & Hp & Hfunc). exists fi. rewrite <- list_elem_of_In.
    split; [done|]. apply in_map_iff. exists (snd p).
    rewrite <- list_elem_of_In. split; [|done]. destruct p. simpl in *. by subst.
Qed.

Lemma listed_classes_elem_of (files : list FileInfo) (p : string * ClassInfo) :
  p ∈ listed_classes files <->
  exists fi, fi ∈ files /\ fst p = default "" (saved_as fi) /\ snd p ∈ fi_classes fi.
Proof.
  unfold listed_classes. rewrite list_elem_of_In, in_flat_map. split.
  - intros (fi & Hfi & (cls & <- & Hcls)%in_map_iff).
    exists fi. by rewrite !list_elem_of_In.
  - intros (fi & Hfi & Hp & Hcls). exists fi. rewrite <- list_elem_of_In.
    split; [done|]. apply in_map_iff. exists (snd p).
    rewrite <- list_elem_of_In. split; [|done]. destruct p. simpl in *. by subst.
Qed.

Lemma last_filter_elem {A} (P : A -> Prop) `{!forall x, Decision (P x)}
    (l : list A) (x : A) :
  last (filter P l) = Some x -> P x /\ x ∈ l.
Proof. intros Hlast%last_Some_elem_of. by apply list_elem_of_filter in Hlast. Qed.

Lemma last_filter_is_Some {A} (P : A -> Prop) `{!forall x, Decision (P x)}
    (l : list A) (x : A) :
  x ∈ l -> P x -> is_Some (last (filter P l)).
Proof.
  intros Hx HP. apply last_is_Some. intros Hnil.
  by apply (filter_nil_not_elem_of P l x).
Qed.

(** X5: a built index has no dangling reference. Every function and class
    entry names the display name of a listed file that declares the name at
    the recorded line, and every function or class a listed file declares
    has an entry. *)
Theorem index_has_no_dangling_reference `{FnMatch} (indices : Store) (sdk : string)
    (source_path : SourceTree) (config : Config) (index : SdkIndex) :
  snd (index_sdk indices sdk source_path config) = Some index ->
  (forall name loc,
     ix_functions index !! name = Some loc ->
     exists fi func,
       fi ∈ ix_files index /\ saved_as fi = Some (fl_file loc)
       /\ func ∈ fi_functions fi /\ f_name func = name /\ f_line func = fl_line loc)
  /\ (forall name loc,
        ix_classes index !! name = Some loc ->
        exists fi cls,
          fi ∈ ix_files index /\ saved_as fi = Some (cl_file loc)
          /\ cls ∈ fi_classes fi /\ c_name cls = name /\ c_line cls = cl_line loc
          /\ c_methods cls = cl_methods loc)
  /\ (forall fi func,
        fi ∈ ix_files index -> func ∈ fi_functions fi ->
        is_Some (ix_functions index !! f_name func))
  /\ (forall fi cls,
        fi ∈ ix_files index -> cls ∈ fi_classes fi ->
        is_Some (ix_classes index !! c_name cls)).
Proof.
  intros Hindex.
  assert (Forall (fun fi => is_Some (saved_as fi)) (ix_files index)) as Hsaved.
  { destruct (index_sdk_files _ _ _ _ _ Hindex) as (all_files & _ & ->).
    apply Forall_forall.
    intros fi (f & _ & Hfi)%list_elem_of_omap. unfold recorded_file in Hfi.
    destruct (_should_exclude f _); [done|].
    destruct (_analyze_file f); [|done]. injection Hfi as <-. by eexists. }
  destruct (index_sdk_maps _ _ _ _ _ Hindex) as (Hf & Hc & _).
  split; [|split; [|split]].
  - intros name loc. rewrite Hf, foldl_insert_last.
    destruct (last _) as [[saved func]|] eqn:Hlast; [|done].
    intros [= <-]. apply last_filter_elem in Hlast as [Hname Hin].
    apply listed_functions_elem_of in Hin as (fi & Hfi & Hs & Hfunc). simpl in *.
    exists fi, func. repeat split; try done.
    rewrite Forall_forall in Hsaved. destruct (Hsaved fi Hfi) as [s Es].
    rewrite Es in *. simpl in Hs. by subst.
  - intros name loc. rewrite Hc, foldl_insert_last.
    destruct (last _) as [[saved cls]|] eqn:Hlast; [|done].
    intros [= <-]. apply last_filter_elem in Hlast as [Hname Hin].
    apply listed_classes_elem_of in Hin as (fi & Hfi & Hs & Hcls). simpl in *.
    exists fi, cls. repeat split; try done.
    rewrite Forall_forall in Hsaved. destruct (Hsaved fi Hfi) as [s Es].
    rewrite Es in *. simpl in Hs. by subst.
  - intros fi func Hfi Hfunc. rewrite Hf, foldl_insert_last.
    destruct (last_filter_is_Some (fun p => f_name (snd p) = f_name func)
                (listed_functions (ix_files index)) (default "" (saved_as fi), func))
      as [p ->]; [|done|by eexists].
    apply listed_functions_elem_of. by exists fi.
  - intros fi cls Hfi Hcls. rewrite Hc, foldl_insert_last.
    destruct (last_filter_is_Some (fun p => c_name (snd p) = c_name cls)
                (listed_classes (ix_files index)) (default "" (saved_as fi), cls))
      as [p ->]; [|done|by eexists].
    apply listed_classes_elem_of. by exists fi.
Qed.

Lemma index_has_no_dangling_reference_witness :
  exists fi cls,
    fi ∈ ix_files factory_index /\ saved_as fi = Some "sdk_factory.md"
    /\ cls ∈ fi_classes fi /\ c_name cls = "Widget" /\ c_line cls = 5
    /\ c_methods cls = [{| m_name := "run"; m_line := 6 |}].
Proof.
  apply (proj1 (proj2 (index_has_no_dangling_reference (H := fragment_fnmatch) ∅ "sdk"
                         factory_sdk no_config factory_index eq_refl))
           "Widget" {| cl_file := "sdk_factory.md"; cl_line := 5;
                       cl_methods := [{| m_name := "run"; m_line := 6 |}] |}).
  reflexivity.
Defined.

(** *** The order of the files *)













(** *** The store under [index_sdk] and [load_indices] *)

Lemma load_files_keyed (entries : list (string * persisted)) (indices : Store) :
  keyed indices -> keyed (fst (load_files entries indices)).
Proof.
  revert indices. induction entries as [|[name [|index]] entries IH];
    intros indices Hkeyed; simpl; [done..|].
  case_bool_decide; apply IH; [done|]. by apply map_Forall_insert_2.
Qed.

(** X7: building an index and loading a directory both keep the store
    keyed: when every index sits under its own identifier before, every
    index does after, whether or not the load raises. *)
Theorem store_stays_keyed `{FnMatch} (indices : Store) :
  keyed indices ->
  (forall sdk source_path config,
     keyed (fst (index_sdk indices sdk source_path config)))
  /\ (forall input_dir, keyed (fst (load_indices indices input_dir))).
Proof.
  intros Hkeyed. split.
  - intros sdk source_path config. unfold index_sdk.
    destruct (glob_all source_path _) as [all_files|]; [|done]. simpl.
    apply map_Forall_insert_2; [|done].
    by destruct (index_fold_header sdk (default [] (cfg_exclude_patterns config))
                   (sorted_set all_files) (initial_index sdk config)) as (-> & _).
  - intros [entries|]; [|done]. by apply load_files_keyed.
Qed.

Lemma store_stays_keyed_witness :
  keyed (fst (load_indices {[ "sdk" := widget_index ]}
                (Some [("other_index.json", Stored other_index);
                       ("bad_index.json", Malformed)]))).
Proof.
  refine (proj2 (store_stays_keyed (H := fragment_fnmatch) {[ "sdk" := widget_index ]} _) _).
  apply map_Forall_singleton. reflexivity.
Defined.

(** ** The index store, continued *)


Lemma load_files_grows (entries : list (string * persisted)) (indices : Store)
    (sdk : string) :
  is_Some (indices !! sdk) -> is_Some (fst (load_files entries indices) !! sdk).
Proof.
  revert indices. induction entries as [|[name [|index]] entries IH];
    intros indices Hsdk; simpl; [done..|].
  case_bool_decide; apply IH; [done|]. by apply lookup_insert_is_Some'; right.
Qed.

Lemma load_files_origin (entries : list (string * persisted)) (indices : Store)
    (sdk : string) (index : SdkIndex) :
  fst (load_files entries indices) !! sdk = Some index ->
  indices !! sdk = Some index
  \/ exists name, (name, Stored index) ∈ entries /\ sdk_id index = sdk /\ sdk <> "".
Proof.
  revert indices. induction entries as [|[name [|index']] entries IH];
    intros indices Hsdk; simpl in Hsdk; [by left..|].
  case_bool_decide as Hid.
  - destruct (IH _ Hsdk) as [Hold|(name' & Hin & Hrest)]; [by left|].
    right. exists name'. split; [by right | done].
  - destruct (IH _ Hsdk) as [Hold|(name' & Hin & Hrest)].
    + apply lookup_insert_Some in Hold as [[<- <-]|[_ Hold]]; [|by left].
      right. exists name. split; [by left | done].
    + right. exists name'. split; [by right | done].
Qed.

(** X9: a load drops nothing from the store, and whatever the store holds
    afterwards under an identifier was there before or is an index record of
    the directory that carries this identifier, which is then not empty;
    this holds whether or not the load raises. *)
Theorem load_only_adds_identified_records (indices : Store)
    (input_dir : option (list (string * persisted))) :
  (forall sdk, is_Some (indices !! sdk) ->
               is_Some (fst (load_indices indices input_dir) !! sdk))
  /\ (forall sdk index,
        fst (load_indices indices input_dir) !! sdk = Some index ->
        indices !! sdk = Some index
        \/ exists entries name,
             input_dir = Some entries /\ (name, Stored index) ∈ entries
             /\ is_index_file name = true /\ sdk_id index = sdk /\ sdk <> "").
Proof.
  destruct input_dir as [entries|]; simpl; [|by eauto].
  split.
  - intros sdk. apply load_files_grows.
  - intros sdk index [Hold|(name & Hin & Hid & Hne)]%load_files_origin; [by left|].
    right. exists entries, name.
    apply list_elem_of_In, filter_In in Hin as [Hin%list_elem_of_In Hidx]. done.
Qed.

Lemma load_files_returned (entries : list (string * persisted)) (indices : Store) :
  snd (load_files entries indices) = Returned ->
  Forall (fun e => snd e <> Malformed) entries.
Proof.
  revert indices. induction entries as [|[name [|index]] entries IH];
    intros indices Hret; simpl in Hret; [constructor | done |].
  constructor; [done|]. case_bool_decide; by eapply IH.
Qed.

(** X10: a load of an existing directory returns without raising exactly
    when no file of the directory whose name matches [*_index.json] is
    malformed; files with other names are never read. *)
Theorem load_returns_iff_well_formed (indices : Store)
    (entries : list (string * persisted)) :
  snd (load_indices indices (Some entries)) = Returned
  <-> Forall (fun e => is_index_file (fst e) = true -> snd e <> Malformed) entries.
Proof.
  simpl. split.
  - intros Hret%load_files_returned. apply List.Forall_forall. intros e He Hidx.
    rewrite List.Forall_forall in Hret. apply Hret. by apply filter_In.
  - intros Hwf. by apply load_files_returns, filter_well_formed.
Qed.


Lemma load_only_adds_identified_records_witness :
  is_Some (fst (load_indices widget_store
                  (Some [("other_index.json", Stored other_index);
                         ("bad_index.json", Malformed)])) !! "sdk").
Proof.
  apply (proj1 (load_only_adds_identified_records widget_store _) "sdk").
  exists widget_index. apply lookup_singleton_eq.
Defined.

(** ** Searching, continued *)

Section SearchMore.
Context `{ReEngine}.

Lemma search_lines_take (lines : list string) (line_num : nat) (matches : list string)
    (pat : pattern) (cs : bool) (max_results : Z) :
  search_lines lines line_num matches pat cs max_results
  = matches
    ++ take (Nat.max 1 (Z.to_nat max_results - length matches))
         (numbered_matches lines line_num pat cs).
Proof.
  revert line_num matches. induction lines as [|line rest IH]; intros line_num matches.
  - simpl. by rewrite take_nil, (right_id_L [] (++)).
  - simpl. destruct (_line_matches line pat cs); [|apply IH].
    destruct (Z.leb_spec max_results
                (Z.of_nat (length (matches ++ [match_entry line_num line])))) as [Hge|Hlt];
      rewrite length_app in *; simpl in *.
    + replace (Nat.max 1 (Z.to_nat max_results - length matches)) with 1 by lia. done.
    + rewrite IH, length_app, <- (assoc_L (++)). simpl. f_equal.
      replace (Nat.max 1 (Z.to_nat max_results - length matches))
        with (S (Nat.max 1 (Z.to_nat max_results - (length matches + 1)))) by lia.
      done.
Qed.

Lemma numbered_matches_all (lines : list string) (line_num : nat) (pat : pattern)
    (cs : bool) :
  Forall (fun line => _line_matches line pat cs = true) lines ->
  numbered_matches lines line_num pat cs
  = imap (fun i line => match_entry (line_num + i) line) lines.
Proof.
  intros Hall. revert line_num. induction Hall as [|line rest Hline _ IH]; intros line_num.
  - done.
  - simpl. rewrite Hline, IH. simpl. rewrite Nat.add_0_r. f_equal.
    apply imap_ext. intros i l _. simpl. f_equal. lia.
Qed.

End SearchMore.

(** X11: the matches of a readable document are the entries of its
    matching lines, in order and numbered from 1, cut after the cap; a cap
    below 1 cuts after the first match. *)
Theorem search_file_takes_first_matches `{ReEngine} (content : string) (pat : pattern)
    (cs : bool) (max_results : Z) :
  _search_file (Text content) pat cs max_results
  = take (Nat.max 1 (Z.to_nat max_results))
      (numbered_matches (PyStr.iter_lines content) 1 pat cs).
Proof.
  simpl. rewrite search_lines_take. simpl. by rewrite Nat.sub_0_r.
Qed.

(** X12: the empty literal pattern, which is what an empty query is
    prepared into, matches every line: the matches of a document are then
    its first lines, up to the cap, each stripped and numbered. *)
Theorem empty_query_lists_first_lines `{ReEngine} (content : string) (cs : bool)
    (max_results : Z) :
  prepared_pattern ""
    {| case_sensitive := cs; max_results_per_file := max_results; regex := false |}
  = Some (Literal "")
  /\ _search_file (Text content) (Literal "") cs max_results
     = take (Nat.max 1 (Z.to_nat max_results))
         (imap (fun i line => "Line " +:+ PyStr.of_nat (S i) +:+ ": " +:+ PyStr.strip line)
            (PyStr.iter_lines content)).
Proof.
  split; [by destruct cs|].
  simpl. rewrite search_lines_take. simpl. rewrite Nat.sub_0_r. f_equal.
  rewrite numbered_matches_all; [done|].
  apply List.Forall_forall. intros line _. unfold _line_matches, PyStr.contains.
  by destruct (PyStr.chars (if cs then line else PyStr.lower line)).
Qed.

Section SearchCodeMore.
Context `{ReEngine}.

Lemma search_one_file_lookup (docs : gmap string document) (pat : pattern) (cs : bool)
    (max_results : Z) (results : gmap string (list string)) (fi : FileInfo)
    (name : string) :
  search_one_file docs pat cs max_results results fi !! name
  = if bool_decide (saved_as fi = Some name)
    then match found_matches docs pat cs max_results name with
         | Some matches => Some matches
         | None => results !! name
         end
    else results !! name.
Proof.
  unfold search_one_file, found_matches.
  destruct (saved_as fi) as [saved|]; [|by rewrite bool_decide_eq_false_2].
  destruct (decide (saved = name)) as [->|Hne].
  - rewrite (bool_decide_eq_true_2 (Some name = Some name)) by done.
    case_bool_decide; [done|]. destruct (docs !! name) as [doc|]; [|done].
    destruct (_search_file doc pat cs max_results); [done|].
    by rewrite lookup_insert_eq.
  - rewrite (bool_decide_eq_false_2 (Some saved = Some name)) by congruence.
    case_bool_decide; [done|]. destruct (docs !! saved) as [doc|]; [|done].
    destruct (_search_file doc pat cs max_results); [done|].
    by rewrite lookup_insert_ne.
Qed.

Lemma search_fold_lookup (docs : gmap string document) (pat : pattern) (cs : bool)
    (max_results : Z) (files : list FileInfo) (results : gmap string (list string))
    (name : string) :
  foldl (search_one_file docs pat cs max_results) results files !! name
  = if bool_decide (Some name ∈ saved_as <$> files)
    then match found_matches docs pat cs max_results name with
         | Some matches => Some matches
         | None => results !! name
         end
    else results !! name.
Proof.
  revert results. induction files as [|fi files IH]; intros results.
  - rewrite bool_decide_eq_false_2; [done|]. apply not_elem_of_nil.
  - change (foldl (search_one_file docs pat cs max_results) results (fi :: files))
      with (foldl (search_one_file docs pat cs max_results)
              (search_one_file docs pat cs max_results results fi) files).
    change (saved_as <$> fi :: files) with (saved_as fi :: (saved_as <$> files)).
    rewrite IH, search_one_file_lookup.
    destruct (decide (saved_as fi = Some name)) as [Hfi|Hfi].
    + rewrite (bool_decide_eq_true_2 (saved_as fi = Some name)) by done.
      rewrite (bool_decide_eq_true_2 (Some name ∈ saved_as fi :: _))
        by (rewrite Hfi; left).
      case_bool_decide; by destruct (found_matches docs pat cs max_results name).
    + rewrite (bool_decide_eq_false_2 (saved_as fi = Some name)) by done.
      rewrite (bool_decide_ext (Some name ∈ saved_as fi :: (saved_as <$> files))
                 (Some name ∈ saved_as <$> files)); [done|].
      rewrite elem_of_cons. split; [|by right]. intros [Heq|?]; [congruence | done].
Qed.

End SearchCodeMore.

(** X13: [search_code] returns nothing for an SDK without an index or
    without a document directory. Otherwise, once the pattern is prepared,
    a name has an entry exactly when it is the non-empty saved name of a
    listed file, a document of that name exists and searching it gives at
    least one match; the entry is then what [_search_file] returns for the
    document. *)
Theorem search_code_entries `{ReEngine} (indices : Store) (data_dir : DataDir)
    (sdk query : string) (options : SearchOptions) :
  (indices !! sdk = None -> search_code indices data_dir sdk query options = ∅)
  /\ (forall pat, prepared_pattern query options = Some pat ->
        data_dir !! sdk = None ->
        search_code indices data_dir sdk query options = ∅)
  /\ (forall index pat docs name matches,
        indices !! sdk = Some index ->
        prepared_pattern query options = Some pat ->
        data_dir !! sdk = Some docs ->
        (search_code indices data_dir sdk query options !! name = Some matches
         <-> name <> ""
             /\ Some name ∈ saved_as <$> ix_files index
             /\ exists doc,
                  docs !! name = Some doc
                  /\ matches = _search_file doc pat (case_sensitive options)
                                 (max_results_per_file options)
                  /\ matches <> [])).
Proof.
  unfold search_code, get_index, prepared_pattern. split; [|split].
  - by intros ->.
  - intros pat -> ->. by destruct (indices !! sdk).
  - intros index pat docs name matches -> -> ->.
    rewrite search_fold_lookup, lookup_empty. unfold found_matches.
    case_bool_decide as Hin; [|by split; [|intros (_ & ? & _)]].
    case_bool_decide as Hname; [by split; [|intros (? & _)]|].
    destruct (docs !! name) as [doc|]; [|by split; [|intros (_ & _ & ? & ? & _)]].
    destruct (_search_file doc pat _ _) as [|m ms] eqn:E.
    { split; [done|]. intros (_ & _ & doc' & [= <-] & -> & Hne). by rewrite E in Hne. }
    split.
    + intros [= <-]. repeat split; try done. exists doc. by rewrite E.
    + intros (_ & _ & doc' & [= <-] & -> & _). by rewrite E.
Qed.

Lemma search_code_entries_witness :
  search_code (H := fragment_re) widget_store widget_data "sdk" "Widget" default_options
  !! "sdk_widget.md"
  = Some ["Line 1: # widget.py"; "Line 4: class Widget:"; "Line 5: # a widget"].
Proof.
  apply (proj2 (proj2 (search_code_entries (H := fragment_re) widget_store widget_data
                         "sdk" "Widget" default_options))
           widget_index (Literal "widget") {[ "sdk_widget.md" := widget_doc ]}
           "sdk_widget.md" _ eq_refl eq_refl eq_refl).
  split; [discriminate|]. split; [by left|].
  exists widget_doc. split; [reflexivity|]. split; [reflexivity | discriminate].
Defined.

Lemma search_all_fold_lookup {A} (g : string -> gmap string (list string))
    (l : list (string * A)) (sdk : string) :
  foldr (fun kv (all_results : gmap string (gmap string (list string))) =>
           if bool_decide (g kv.1 = ∅) then all_results
           else <[kv.1 := g kv.1]> all_results) ∅ l !! sdk
  = if bool_decide (sdk ∈ l.*1 /\ g sdk <> ∅) then Some (g sdk) else None.
Proof.
  induction l as [|[k x] l IH].
  - rewrite bool_decide_eq_false_2; [done|]. intros [Hin _]. by apply elem_of_nil in Hin.
  - change (((k, x) :: l).*1) with (k :: l.*1). simpl.
    destruct (decide (k = sdk)) as [->|Hk].
    + destruct (bool_decide_reflect (g sdk = ∅)) as [Hempty|Hfull].
      * rewrite IH. rewrite !bool_decide_eq_false_2; [done|by intros [_ ?]..].
      * rewrite lookup_insert_eq, bool_decide_eq_true_2; [done|]. split; [left | done].
    + assert (bool_decide (sdk ∈ k :: l.*1 /\ g sdk <> ∅)
              = bool_decide (sdk ∈ l.*1 /\ g sdk <> ∅)) as ->.
      { apply bool_decide_ext. rewrite elem_of_cons. split.
        - intros [[->|?] ?]; done.
        - intros [? ?]. split; [by right | done]. }
      destruct (bool_decide_reflect (g k = ∅)); [done|]. by rewrite lookup_insert_ne.
Qed.

(** X14: [search_all_sdks] maps an identifier to a result exactly when the
    store holds an index under it and [search_code] finds something for it;
    the result is then the one of [search_code]. An SDK without a match is
    left out. *)
Theorem search_all_sdks_entries `{ReEngine} (indices : Store) (data_dir : DataDir)
    (query : string) (options : SearchOptions) (sdk : string)
    (results : gmap string (list string)) :
  search_all_sdks indices data_dir query options !! sdk = Some results
  <-> is_Some (indices !! sdk)
      /\ results = search_code indices data_dir sdk query options
      /\ results <> ∅.
Proof.
  unfold search_all_sdks. rewrite map_fold_foldr.
  rewrite (foldr_ext _
             (fun kv (all_results : gmap string (gmap string (list string))) =>
                if bool_decide (search_code indices data_dir kv.1 query options = ∅)
                then all_results
                else <[kv.1 := search_code indices data_dir kv.1 query options]> all_results)
             ∅ ∅ (map_to_list indices) (map_to_list indices));
    [|by intros [] ? | done | done].
  rewrite (search_all_fold_lookup
             (fun k => search_code indices data_dir k query options)).
  assert (sdk ∈ (map_to_list indices).*1 <-> is_Some (indices !! sdk)) as Hdom.
  { rewrite list_elem_of_fmap. split.
    - intros ([k index] & -> & Hin%elem_of_map_to_list). by eexists.
    - intros [index Hin]. exists (sdk, index). split; [done|].
      by apply elem_of_map_to_list. }
  case_bool_decide as Hcase.
  - destruct Hcase as [Hin Hne]. split.
    + intros [= <-]. by rewrite <- Hdom.
    + by intros (_ & -> & _).
  - split; [done|]. intros (Hin & -> & Hne). apply Hdom in Hin. by destruct Hcase.
Qed.

(** ** The source of a type, continued *)

Lemma class_body_block_at (following result_lines : list string) (base : nat) :
  class_body following base result_lines = result_lines ++ block_at base following.
Proof.
  revert result_lines. induction following as [|line rest IH]; intros result_lines; simpl.
  - by rewrite (right_id_L [] (++)).
  - rewrite strip_blank, indent_indentation. destruct (is_blank line).
    + by rewrite IH, <- (assoc_L (++)).
    + simpl. rewrite andb_true_r.
      destruct (Nat.leb_spec (indentation line) base) as [Hle|Hgt].
      * rewrite (proj2 (Nat.ltb_ge base (indentation line))) by done.
        by rewrite (right_id_L [] (++)).
      * rewrite (proj2 (Nat.ltb_lt base (indentation line))) by done.
        by rewrite IH, <- (assoc_L (++)).
Qed.

Lemma block_at_spec (base : nat) (following : list string) :
  exists tail,
    following = block_at base following ++ tail
    /\ Forall (fun line => is_blank line = true \/ base < indentation line)
         (block_at base following)
    /\ match tail with
       | [] => True
       | line :: _ => is_blank line = false /\ indentation line <= base
       end.
Proof.
  induction following as [|line rest (tail & Hsplit & Hblock & Htail)]; simpl.
  - by exists [].
  - destruct (is_blank line) eqn:Hblank.
    + exists tail. split; [simpl; by f_equal|]. split; [|done].
      constructor; [by left | done].
    + destruct (base <? indentation line) eqn:Hind.
      * exists tail. split; [simpl; by f_equal|]. split; [|done].
        constructor; [|done]. right. by apply Nat.ltb_lt.
      * exists (line :: rest). split; [done|]. split; [constructor|].
        split; [done|]. by apply Nat.ltb_ge in Hind.
Qed.

Lemma find_class_start_none (needle : string) (lines : list string) :
  Forall (fun line => PyStr.contains needle line = false) lines ->
  find_class_start needle lines = None.
Proof. induction 1 as [|line rest Hline _ IH]; simpl; [done | by rewrite Hline]. Qed.

(** X15: at any indentation, the text extracted for a class is the first
    line of the document that contains ["class <name>"], followed by the
    lines after it up to the first line that is neither blank nor indented
    by more than that first line; the recorded start line plays no part.
    When no line contains the text the result is the not-found message. *)
Theorem class_source_at_any_indentation (content class_name : string) (start_line : nat) :
  (Forall (fun line => PyStr.contains ("class " +:+ class_name) line = false)
     (PyStr.split PyStr.LF content) ->
   _extract_class_from_content content class_name start_line
   = "Class " +:+ class_name +:+ " not found in file")
  /\ (forall before decl following,
        PyStr.split PyStr.LF content = before ++ decl :: following ->
        Forall (fun line => PyStr.contains ("class " +:+ class_name) line = false) before ->
        PyStr.contains ("class " +:+ class_name) decl = true ->
        _extract_class_from_content content class_name start_line
        = PyStr.join (String PyStr.LF "") (decl :: block_at (indentation decl) following)
        /\ exists tail,
             following = block_at (indentation decl) following ++ tail
             /\ Forall (fun line => is_blank line = true \/ indentation decl < indentation line)
                  (block_at (indentation decl) following)
             /\ match tail with
                | [] => True
                | line :: _ => is_blank line = false /\ indentation line <= indentation decl
                end).
Proof.
  unfold _extract_class_from_content. split.
  - intros Hnone. by rewrite find_class_start_none.
  - intros before decl following -> Hbefore Hdecl.
    split; [|apply block_at_spec].
    by rewrite (find_class_start_first _ _ _ _ Hbefore Hdecl), indent_indentation,
      class_body_block_at.
Qed.

Lemma class_source_at_any_indentation_witness :
  _extract_class_from_content
    (PyStr.join (String PyStr.LF "")
       ["class Outer:"; "    class Inner:"; "        x = 1"; ""; "    y = 2"; "z = 3"])
    "Inner" 2
  = PyStr.join (String PyStr.LF "") ["    class Inner:"; "        x = 1"; ""].
Proof.
  refine (proj1 (proj2 (class_source_at_any_indentation _ "Inner" 2)
                   ["class Outer:"] "    class Inner:"
                   ["        x = 1"; ""; "    y = 2"; "z = 3"] _ _ _)).
  - reflexivity.
  - repeat constructor.
  - reflexivity.
Defined.

(** X16: [get_class_source] returns a text, be it the extracted source, the
    not-found message or a read error, exactly when the index of the SDK
    has the class with a non-empty file name and a document of that name
    exists; in every other case it returns nothing. *)
Theorem class_source_present_iff (indices : Store) (data_dir : DataDir)
    (sdk class_name : string) :
  is_Some (get_class_source indices data_dir sdk class_name)
  <-> exists index class_info docs doc,
        indices !! sdk = Some index
        /\ ix_classes index !! class_name = Some class_info
        /\ cl_file class_info <> ""
        /\ data_dir !! sdk = Some docs
        /\ docs !! cl_file class_info = Some doc.
Proof.
  unfold get_class_source, find_class, get_index. split.
  - destruct (indices !! sdk) as [index|] eqn:Hindex; [|by intros []].
    destruct (ix_classes index !! class_name) as [class_info|] eqn:Hclass; [|by intros []].
    case_bool_decide as Hfile; [by intros []|].
    destruct (data_dir !! sdk) as [docs|] eqn:Hdocs; [|by intros []]. simpl.
    destruct (docs !! cl_file class_info) as [doc|] eqn:Hdoc; [|by intros []].
    intros _. by exists index, class_info, docs, doc.
  - intros (index & class_info & docs & doc & -> & -> & Hfile & -> & Hdoc).
    rewrite bool_decide_eq_false_2 by done. simpl. rewrite Hdoc.
    by destruct doc.
Qed.

Lemma split_chars_plain (sep : ascii) (cur l : list ascii) :
  ~ In sep l -> PyStr.split_chars sep cur l = [PyStr.str (rev cur ++ l)].
Proof.
  revert cur. induction l as [|c l IH]; intros cur Hsep; simpl.
  - by rewrite (right_id_L [] (++)).
  - rewrite bool_decide_eq_false_2 by (intros ->; apply Hsep; by left).
    rewrite IH by (intros ?; apply Hsep; by right).
    simpl. by rewrite <- (assoc_L (++)).
Qed.

Lemma split_chars_at_sep (sep : ascii) (cur l1 l2 : list ascii) :
  ~ In sep l1 ->
  PyStr.split_chars sep cur (l1 ++ sep :: l2)
  = PyStr.str (rev cur ++ l1) :: PyStr.split_chars sep [] l2.
Proof.
  revert cur. induction l1 as [|c l1 IH]; intros cur Hsep; simpl.
  - rewrite bool_decide_eq_true_2 by done. by rewrite (right_id_L [] (++)).
  - rewrite bool_decide_eq_false_2 by (intros ->; apply Hsep; by left).
    rewrite IH by (intros ?; apply Hsep; by right).
    simpl. by rewrite <- (assoc_L (++)).
Qed.

Lemma split_chars_parts (sep : ascii) (cur l : list ascii) (part : string) :
  ~ In sep cur -> In part (PyStr.split_chars sep cur l) -> ~ In sep (PyStr.chars part).
Proof.
  revert cur. induction l as [|c l IH]; intros cur Hcur; simpl.
  - intros [<-|[]]. rewrite chars_str. by intros ?%in_rev.
  - case_bool_decide as Hc.
    + intros [<-|Hin]; [rewrite chars_str; by intros ?%in_rev|].
      apply (IH []); [by intros [] | done].
    + apply IH. intros [->|?]; [done | by apply Hcur].
Qed.

(** Joining lines that hold no line feed and splitting the text again
    gives the lines back. *)
Lemma split_join_lines (first : string) (lines : list string) :
  Forall (fun line => ~ In PyStr.LF (PyStr.chars line)) (first :: lines) ->
  PyStr.split PyStr.LF (PyStr.join (String PyStr.LF "") (first :: lines))
  = first :: lines.
Proof.
  revert first. induction lines as [|second lines IH]; intros first Hall.
  - apply Forall_cons in Hall as [Hfirst _]. unfold PyStr.split. simpl.
    rewrite split_chars_plain by done. simpl.
    by rewrite string_of_list_ascii_of_string.
  - apply Forall_cons in Hall as [Hfirst Hall]. unfold PyStr.split in *.
    change (PyStr.join (String PyStr.LF "") (first :: second :: lines))
      with (first +:+ String PyStr.LF "" +:+ PyStr.join (String PyStr.LF "") (second :: lines)).
    rewrite !chars_app. simpl PyStr.chars at 2.
    change ((PyStr.LF :: []) ++ ?l) with (PyStr.LF :: l).
    rewrite split_chars_at_sep by done. simpl rev. simpl app at 1.
    rewrite string_of_list_ascii_of_string. f_equal. by apply IH.
Qed.

Lemma find_class_start_Some (needle : string) (lines : list string) :
  Exists (fun line => PyStr.contains needle line = true) lines ->
  exists before decl following,
    lines = before ++ decl :: following
    /\ Forall (fun line => PyStr.contains needle line = false) before
    /\ PyStr.contains needle decl = true.
Proof.
  induction lines as [|line rest IH]; intros Hex; [by apply Exists_nil in Hex|].
  destruct (PyStr.contains needle line) eqn:Hline.
  - by exists [], line, rest.
  - apply Exists_cons in Hex as [Hex|Hex]; [congruence|].
    destruct (IH Hex) as (before & decl & following & -> & Hbefore & Hdecl).
    exists (line :: before), decl, following. repeat split; [|done]. by constructor.
Qed.

(** X17: when some line of the document contains ["class <name>"], the text
    extracted for the class, split into lines again, is a run of consecutive
    lines of the document, and that run begins with the first such line. *)
Theorem class_source_is_a_run_of_lines (content class_name : string) (start_line : nat) :
  Exists (fun line => PyStr.contains ("class " +:+ class_name) line = true)
    (PyStr.split PyStr.LF content) ->
  exists before decl block tail,
    PyStr.split PyStr.LF content = before ++ (decl :: block) ++ tail
    /\ PyStr.split PyStr.LF (_extract_class_from_content content class_name start_line)
       = decl :: block
    /\ PyStr.contains ("class " +:+ class_name) decl = true
    /\ Forall (fun line => PyStr.contains ("class " +:+ class_name) line = false) before.
Proof.
  intros (before & decl & following & Hlines & Hbefore & Hdecl)%find_class_start_Some.
  destruct (block_at_spec (indentation decl) following) as (tail & Hsplit & _ & _).
  exists before, decl, (block_at (indentation decl) following), tail.
  split; [|split; [|done]].
  - rewrite Hlines. simpl. by rewrite <- Hsplit.
  - unfold _extract_class_from_content. rewrite Hlines.
    rewrite (find_class_start_first _ _ _ _ Hbefore Hdecl), indent_indentation,
      class_body_block_at.
    apply split_join_lines. apply List.Forall_forall. intros line Hline.
    apply (split_chars_parts PyStr.LF [] (PyStr.chars content)); [by intros []|].
    fold (PyStr.split PyStr.LF content). rewrite Hlines.
    apply in_or_app. right. destruct Hline as [<-|Hline]; [by left|]. right.
    rewrite Hsplit. apply in_or_app. by left.
Qed.

Lemma class_source_is_a_run_of_lines_witness :
  exists before decl block tail,
    PyStr.split PyStr.LF
      (PyStr.join (String PyStr.LF "")
         ["class Outer:"; "    class Inner:"; "        x = 1"; ""; "    y = 2"; "z = 3"])
    = before ++ (decl :: block) ++ tail
    /\ PyStr.split PyStr.LF
         (_extract_class_from_content
            (PyStr.join (String PyStr.LF "")
               ["class Outer:"; "    class Inner:"; "        x = 1"; ""; "    y = 2"; "z = 3"])
            "Inner" 2)
       = decl :: block
    /\ PyStr.contains ("class " +:+ "Inner") decl = true
    /\ Forall (fun line => PyStr.contains ("class " +:+ "Inner") line = false) before.
Proof.
  apply (class_source_is_a_run_of_lines _ "Inner" 2).
  apply Exists_cons_tl, Exists_cons_hd. reflexivity.
Defined.

(** ** Examples for a topic, continued *)

Section ExamplesMore.
Context `{ReEngine}.

Lemma search_code_nonempty (indices : Store) (data_dir : DataDir) (sdk query : string)
    (options : SearchOptions) (file : string) (matches : list string) :
  search_code indices data_dir sdk query options !! file = Some matches ->
  matches <> [].
Proof.
  unfold search_code. destruct (get_index indices sdk) as [index|]; [|by rewrite lookup_empty].
  destruct (if regex options then _ else _) as [pat|].
  2:{ unfold invalid_regex. by intros [_ <-]%lookup_singleton_Some. }
  destruct (data_dir !! sdk) as [docs|]; [|by rewrite lookup_empty].
  rewrite search_fold_lookup, lookup_empty. case_bool_decide; [|done].
  unfold found_matches. case_bool_decide; [done|].
  destruct (docs !! file) as [doc|]; [|done].
  destruct (_search_file doc pat _ _); [done|]. by intros [= <-].
Qed.

Lemma concat_length_bound (found : list (list string)) (n : nat) :
  Forall (fun matches => length matches <= n) found ->
  length (concat found) <= n * length found.
Proof.
  induction 1 as [|matches found Hm _ IH]; simpl; [lia|].
  rewrite length_app. lia.
Qed.

Lemma omap_length_le {A B} (f : A -> option B) (l : list A) :
  length (omap f l) <= length l.
Proof.
  induction l as [|x l IH]; [done|].
  change (omap f (x :: l))
    with (match f x with Some y => y :: omap f l | None => omap f l end).
  destruct (f x); simpl; lia.
Qed.

Lemma extend_results_singleton (all_results : gmap string (list string))
    (file : string) (matches : list string) :
  extend_results all_results {[ file := matches ]}
  = <[file := default [] (all_results !! file) ++ matches]> all_results.
Proof. unfold extend_results. by rewrite map_fold_singleton. Qed.

End ExamplesMore.

(** X18: every list [find_examples] returns for a file is non-empty and
    holds at most 25 entries, and each entry is a match that one of the five
    pattern queries returned for that file. *)
Theorem find_examples_bounded `{ReEngine} (indices : Store) (data_dir : DataDir)
    (sdk topic file : string) (matches : list string) :
  find_examples indices data_dir sdk topic !! file = Some matches ->
  matches <> []
  /\ length matches <= 25
  /\ Forall (fun entry =>
               exists pat found,
                 In pat [ "def.*" +:+ topic; "class.*" +:+ topic; topic +:+ "\s*\(";
                          "@" +:+ topic; "self\." +:+ topic ]
                 /\ search_code indices data_dir sdk pat
                      {| case_sensitive := false; max_results_per_file := 5;
                         regex := true |} !! file = Some found
                 /\ In entry found) matches.
Proof.
  unfold find_examples.
  rewrite <- (foldl_fmap extend_results ∅ _
               (fun pat => search_code indices data_dir sdk pat example_options)).
  rewrite merge_lookup, lookup_empty.
  set (per_query := (fun pat => search_code indices data_dir sdk pat example_options)
                      <$> example_patterns topic).
  assert (Forall (fun found =>
            exists pat, In pat (example_patterns topic)
                        /\ search_code indices data_dir sdk pat example_options !! file
                           = Some found)
            (omap (fun results => results !! file) per_query)) as Hfound.
  { apply Forall_forall. intros found (results & Hin & Hlookup)%list_elem_of_omap.
    apply list_elem_of_fmap in Hin as (pat & -> & Hpat%list_elem_of_In). eauto. }
  assert (length (omap (fun results : gmap string (list string) => results !! file)
                    per_query) <= 5) as Hlen.
  { etransitivity; [apply omap_length_le|]. by unfold per_query; rewrite length_fmap. }
  destruct (omap _ per_query) as [|first found]; [done|].
  intros [= <-]. change (default [] None ++ ?l) with l. split; [|split].
  - apply Forall_cons in Hfound as [(pat & _ & Hfirst) _].
    apply search_code_nonempty in Hfirst. simpl. by destruct first.
  - assert (length (concat (first :: found)) <= 5 * length (first :: found)) as Hc.
    { apply concat_length_bound. eapply Forall_impl; [exact Hfound|].
      intros ms (pat & _ & Hms). apply search_code_bound in Hms; simpl in *; lia. }
    simpl in *. lia.
  - apply Forall_forall. intros entry Hentry%list_elem_of_In.
    change (In entry (concat (first :: found))) in Hentry.
    apply in_concat in Hentry as (ms & Hms%list_elem_of_In & Hentry).
    rewrite Forall_forall in Hfound. destruct (Hfound ms Hms) as (pat & Hpat & Hlookup).
    by exists pat, ms.
Qed.

Lemma find_examples_bounded_witness :
  find_examples (H := fragment_re) widget_store widget_data "sdk" "run" !! "sdk_widget.md"
  = Some ["Line 8: def run(self):"; "Line 8: def run(self):"]
  /\ length ["Line 8: def run(self):"; "Line 8: def run(self):"] <= 25.
Proof.
  assert (find_examples (H := fragment_re) widget_store widget_data "sdk" "run"
          !! "sdk_widget.md"
          = Some ["Line 8: def run(self):"; "Line 8: def run(self):"]) as Hfound
    by (vm_compute; reflexivity).
  split; [exact Hfound|].
  apply (find_examples_bounded (H := fragment_re) widget_store widget_data "sdk" "run"
           "sdk_widget.md" _ Hfound).
Defined.

(** X19: when the SDK has an index and none of the five patterns made from
    the topic compiles, [find_examples] returns the single key [error] with
    the message five times, once for each pattern. *)
Theorem find_examples_invalid_topic `{ReEngine} (indices : Store) (data_dir : DataDir)
    (sdk topic : string) :
  is_Some (indices !! sdk) ->
  Forall (fun pat => re_compile pat true = None)
    [ "def.*" +:+ topic; "class.*" +:+ topic; topic +:+ "\s*\(";
      "@" +:+ topic; "self\." +:+ topic ] ->
  find_examples indices data_dir sdk topic
  = {[ "error" := replicate 5 "Invalid regex pattern" ]}.
Proof.
  intros [index Hindex] Hall. unfold find_examples, example_patterns. simpl foldl.
  rewrite !Forall_cons in Hall. destruct Hall as (H1 & H2 & H3 & H4 & H5 & _).
  rewrite !(search_code_invalid indices data_dir sdk _ example_options index) by done.
  unfold invalid_regex. rewrite !extend_results_singleton.
  rewrite lookup_empty. simpl.
  rewrite insert_empty.
  repeat (rewrite lookup_singleton_eq; simpl; rewrite insert_singleton_eq).
  done.
Qed.

Lemma find_examples_invalid_topic_witness :
  find_examples (H := fragment_re) widget_store widget_data "sdk" "("
  = {[ "error" := replicate 5 "Invalid regex pattern" ]}.
Proof.
  apply (find_examples_invalid_topic (H := fragment_re)).
  - by eexists.
  - repeat constructor.
Defined.
